(** * Pairwise chat: room directory, session handlers and relay

    A shallow embedding of [chatroom.py] (class [ChatService]),
    [websocket_chat.py] (class [ChatRoom], the per-connection session) and
    [kafka.py] (class [KafkaService]), followed by the properties of the
    specification stated and settled on that embedding.

    Python values are modelled as the code has them: [int] as [Z], [str] as
    [string], a [dict] decoded from JSON as a [gmap string json], ORM rows as
    records, [None]-able references as [option].  Coroutines are run to
    completion one after the other, so [await] is sequencing in a state and
    exception monad whose state survives a raised exception (as a Python
    object's fields and a committed transaction do). *)

From stdpp Require Import gmap strings list.
From Stdlib Require Import ZArith String Ascii List Lia.
Import ListNotations.

Set Warnings "-register-all".
Local Open Scope Z_scope.

(* ===================================================================== *)
(** ** Python primitives                                                  *)
(* ===================================================================== *)

Module Py.

(** The exceptions the three files raise or provoke. *)
Inductive exn : Type :=
  | NotFoundError (what : string)         (* app.errors.app_errors *)
  | RuntimeError (msg : string)
  | AttributeError (obj attr : string)    (* [obj] has no attribute [attr] *)
  | ValueError (msg : string)
  | KeyError (key : string)
  | TypeError (msg : string)
  | StoreError.                           (* raised by the persistence layer *)

Inductive result (A : Type) : Type :=
  | Ok (a : A)
  | Raise (e : exn).
Arguments Ok {A} a.
Arguments Raise {A} e.

(** A computation over a mutable state [S]: it returns or raises, and in
    both cases leaves a state behind. *)
Definition M (S A : Type) : Type := S -> result A * S.

Definition ret {S A} (a : A) : M S A := fun s => (Ok a, s).

Definition raise {S A} (e : exn) : M S A := fun s => (Raise e, s).

Definition bind {S A B} (m : M S A) (k : A -> M S B) : M S B :=
  fun s =>
    match m s with
    | (Ok a, s') => k a s'
    | (Raise e, s') => (Raise e, s')
    end.

(** [try: body except Exception as e: handler e] *)
Definition try_except {S A} (body : M S A) (handler : exn -> M S A) : M S A :=
  fun s =>
    match body s with
    | (Ok a, s') => (Ok a, s')
    | (Raise e, s') => handler e s'
    end.

(** [try: body except NotFoundError: handler]: any other exception
    passes through. *)
Definition try_except_NotFoundError {S A} (body : M S A) (handler : M S A) : M S A :=
  fun s =>
    match body s with
    | (Raise (NotFoundError _), s') => handler s'
    | other => other
    end.

Definition gets {S A} (f : S -> A) : M S A := fun s => (Ok (f s), s).

Definition modify {S} (f : S -> S) : M S unit := fun s => (Ok tt, f s).

(** Run a computation on a component [T] of the state [S]. *)
Definition zoom {S T A} (get : S -> T) (set : T -> S -> S) (m : M T A) : M S A :=
  fun s => let (r, t) := m (get s) in (r, set t s).

(** JSON documents, as [json.loads] and [receive_json] produce them. *)
Inductive json : Type :=
  | JNull
  | JBool (b : bool)
  | JInt (z : Z)
  | JStr (s : string)
  | JList (l : list json)
  | JDict (d : gmap string json).

(** [d[key]] on a dict. *)
Definition dict_getitem {S} (d : gmap string json) (key : string) : M S json :=
  match d !! key with
  | Some v => ret v
  | None => raise (KeyError key)
  end.

(** [v[key]] with a string key on an arbitrary decoded document: only a
    dict can be indexed by a string. *)
Definition getitem {S} (v : json) (key : string) : M S json :=
  match v with
  | JDict d => dict_getitem d key
  | JStr _ => raise (TypeError "string indices must be integers")
  | JList _ => raise (TypeError "list indices must be integers or slices")
  | JNull | JBool _ | JInt _ => raise (TypeError "object is not subscriptable")
  end.

(** A dict display [{k1: v1, ...}]. *)
Definition dict (items : list (string * json)) : json := JDict (list_to_map items).

(** [v == "literal"] *)
Definition eq_str (v : json) (lit : string) : bool :=
  match v with
  | JStr s => String.eqb s lit
  | _ => false
  end.

(** [s.split(sep)] for a one-character separator: every occurrence of the
    separator ends a token, so there is one token more than separators. *)
Fixpoint str_split (sep : ascii) (s : string) : list string :=
  match s with
  | EmptyString => [EmptyString]
  | String c rest =>
      if Ascii.eqb c sep then EmptyString :: str_split sep rest
      else match str_split sep rest with
           | [] => [String c EmptyString]
           | tok :: toks => String c tok :: toks
           end
  end.

(** [l.remove(x)]: drops the first element equal to [x]; [None] stands for
    the [ValueError] raised when there is none. *)
Fixpoint list_remove (x : string) (l : list string) : option (list string) :=
  match l with
  | [] => None
  | y :: rest =>
      if String.eqb y x then Some rest
      else match list_remove x rest with
           | Some rest' => Some (y :: rest')
           | None => None
           end
  end.

(** ["".join(l)] *)
Definition str_join (l : list string) : string :=
  fold_right String.append EmptyString l.

End Py.
Import Py.

Declare Scope py_scope.
Delimit Scope py_scope with py.
Notation "x <- c ;; k" := (bind c (fun x => k))
  (at level 100, c at next level, right associativity) : py_scope.
Notation "c ;;; k" := (bind c (fun _ => k))
  (at level 100, right associativity) : py_scope.
Local Open Scope py_scope.

(* ===================================================================== *)
(** ** The rows of [app.models] and the persistence layer                 *)
(* ===================================================================== *)

(** Only the columns the three files read or write are kept. *)
Module User.
Record t : Type := mk { id : Z; nickname : string }.

(** Within one database session a row is one Python object (the identity
    map is keyed by primary key), so [==] on two loaded users compares
    their primary keys. *)
Definition same (u v : t) : bool := id u =? id v.
End User.

Module ChatMessage.
Record t : Type := mk { id : Z; context : string; room_id : Z; author_id : Z }.
End ChatMessage.

Module ChatRoom.
Record t : Type := mk {
  id : Z;
  room_name : string;
  users : list User.t;      (* the many-to-many relationship, loaded *)
  active : bool
}.

Definition set_room_name (name : string) (r : t) : t :=
  mk (id r) name (users r) (active r).
Definition set_users (us : list User.t) (r : t) : t :=
  mk (id r) (room_name r) us (active r).
Definition set_active (b : bool) (r : t) : t :=
  mk (id r) (room_name r) (users r) b.
End ChatRoom.

(** [app.schemas.MessageCreate]; [context] holds whatever the client sent
    under ["content"], its validation belongs to the Message Store. *)
Record MessageCreate : Type := {
  mc_context : json;
  mc_room_id : Z;
  mc_author_id : Z
}.

(** The database behind [self.db].  [room_id_seq] is the next value of the
    primary-key sequence of the rooms table and [room_active_default] the
    default of its [active] column, both fixed by the schema, which the
    sources do not contain. *)
Record DB : Type := {
  user_table : list User.t;
  room_table : list ChatRoom.t;
  message_table : list ChatMessage.t;
  room_id_seq : Z;
  room_active_default : bool
}.

Definition set_room_table (rooms : list ChatRoom.t) (d : DB) : DB :=
  {| user_table := user_table d; room_table := rooms;
     message_table := message_table d; room_id_seq := room_id_seq d;
     room_active_default := room_active_default d |}.

(** [self.db.add(room)] followed by a successful flush: the row is appended
    and the sequence advances. *)
Definition db_add_room (r : ChatRoom.t) (d : DB) : DB :=
  {| user_table := user_table d; room_table := room_table d ++ [r];
     message_table := message_table d; room_id_seq := room_id_seq d + 1;
     room_active_default := room_active_default d |}.

(** [ChatRoom(room_name=..., users=[...])] as the flush will store it. *)
Definition new_room (name : string) (members : list User.t) (d : DB) : ChatRoom.t :=
  ChatRoom.mk (room_id_seq d) name members (room_active_default d).

(** Flushing a loaded room whose [users] collection was changed. *)
Definition db_save_users (r : ChatRoom.t) (d : DB) : DB :=
  set_room_table
    (map (fun row => if ChatRoom.id row =? ChatRoom.id r
                     then ChatRoom.set_users (ChatRoom.users r) row else row)
         (room_table d)) d.

(** [self.db.delete(room_db)] *)
Definition db_delete_room (r : ChatRoom.t) (d : DB) : DB :=
  set_room_table
    (filter (fun row => negb (ChatRoom.id row =? ChatRoom.id r)) (room_table d)) d.

(** [update(ChatRoom).where(ChatRoom.id == room_id).values(active=b)] *)
Definition db_update_active (room_id : Z) (b : bool) (d : DB) : DB :=
  set_room_table
    (map (fun row => if ChatRoom.id row =? room_id
                     then ChatRoom.set_active b row else row)
         (room_table d)) d.

(** One record per [logger] call of [chatroom.py]. *)
Inductive log_record : Type :=
  | UpdatedRoomActivity                 (* info: "Updated room activity ..." *)
  | ErrorSettingActivity (e : exn)      (* error: "ERROR SETTING ACTIVITY: ..." *)
  | ErrorAddingMessage (e : exn)        (* error: "Error adding message to DB: ..." *)
  | RemovingChat (room_id : Z)          (* info: "Removing chat with # ..." *)
  | NoSuchChat (room_id : Z).           (* info: "You don't have chat # ..." *)

(** A call on the process-wide [ws_manager] (the Connection Registry, which
    is not part of the sources): what was handed over for delivery. *)
Inductive ws_call : Type :=
  | ConnectionState (room_id : Z) (response : json)
  | Broadcast (room_id : json) (message : json).

(** Everything a handler can change besides its own session object.
    [io_faults] is the environment's schedule for the writes to come: the
    next write raises when the head is [true]; an exhausted schedule means
    the store is healthy. *)
Record World : Type := {
  db : DB;
  io_faults : list bool;
  log : list log_record;
  ws_calls : list ws_call
}.

Definition set_db (d : DB) (w : World) : World :=
  {| db := d; io_faults := io_faults w; log := log w; ws_calls := ws_calls w |}.
Definition set_io_faults (fs : list bool) (w : World) : World :=
  {| db := db w; io_faults := fs; log := log w; ws_calls := ws_calls w |}.
Definition add_log (r : log_record) (w : World) : World :=
  {| db := db w; io_faults := io_faults w; log := log w ++ [r]; ws_calls := ws_calls w |}.
Definition add_ws_call (c : ws_call) (w : World) : World :=
  {| db := db w; io_faults := io_faults w; log := log w; ws_calls := ws_calls w ++ [c] |}.

Definition logger (r : log_record) : M World unit := modify (add_log r).

(** Does the next write to the store fail? *)
Definition next_fault : M World bool :=
  fun w =>
    match io_faults w with
    | [] => (Ok false, w)
    | b :: fs => (Ok b, set_io_faults fs w)
    end.

(** A write statement sent with [self.db.execute]: it raises or goes
    through; its effect lands with the commit. *)
Definition db_execute_write : M World unit :=
  failed <- next_fault ;;
  if failed then raise StoreError else ret tt.

(** [await self.db.commit()] of the pending change [f]: a failed commit is
    rolled back and leaves the store as it was. *)
Definition db_commit (f : DB -> DB) : M World unit :=
  failed <- next_fault ;;
  if failed then raise StoreError else modify (fun w => set_db (f (db w)) w).

(** A statement sent on a session whose last write failed: [chatroom.py]
    never calls a rollback, so the session still holds the failed
    transaction, and whether the statement goes through is the persistence
    layer's decision, taken from the schedule like that of a write. *)
Definition db_execute_on_failed_session : M World unit :=
  failed <- next_fault ;;
  if failed then raise StoreError else ret tt.

(** [ws_manager.connection_state(db, websocket, room_id, response)] *)
Definition connection_state (room_id : Z) (response : json) : M World unit :=
  modify (add_ws_call (ConnectionState room_id response)).

(** [ws_manager.broadcast(room_id, message)] *)
Definition broadcast (room_id message : json) : M World unit :=
  modify (add_ws_call (Broadcast room_id message)).

(** The Message Store ([app.services.message.MessageService]) is an external
    collaborator: any implementation that works on the database and either
    returns or raises. *)
Class MessageService : Type := {
  create_message : MessageCreate -> M DB ChatMessage.t;
  delete_message : json -> M DB unit;
  update_message : json -> json -> M DB ChatMessage.t;
  get_all_messages_in_room : Z -> M DB (list ChatMessage.t)
}.

Definition on_db {A} (m : M DB A) : M World A := zoom db set_db m.

(** Modelled from the spec: [UserService.get_user_by_field] is not in the
    sources; the directory "looks up peer by nickname (fails with
    NotFoundError if unknown)". *)
Definition get_user_by_field (data : string) : M World User.t :=
  fun w =>
    match find (fun u => String.eqb (User.nickname u) data) (user_table (db w)) with
    | Some u => (Ok u, w)
    | None => (Raise (NotFoundError "User"), w)
    end.

(** Modelled from the spec: [UserService.get_user_by_nickname] is not in the
    sources; [insert_room] tests its result for falsity, so an unknown
    nickname yields [None]. *)
Definition get_user_by_nickname (nickname : string) : M World (option User.t) :=
  gets (fun w => find (fun u => String.eqb (User.nickname u) nickname) (user_table (db w))).

(* ===================================================================== *)
(** ** chatroom.py: [ChatService]                                         *)
(* ===================================================================== *)

Module ChatService.

(** [ChatRoom.users.any(User.nickname.in_([nickname]))] *)
Definition any_nickname (nickname : string) (r : ChatRoom.t) : bool :=
  existsb (fun u => String.eqb (User.nickname u) nickname) (ChatRoom.users r).

(** [ChatRoom.users.any(User.id == user_id)] *)
Definition any_user_id (user_id : Z) (r : ChatRoom.t) : bool :=
  existsb (fun u => User.id u =? user_id) (ChatRoom.users r).

(** [_extract_nickname]: the room object is changed in place, which is
    returned here as the changed object. *)
Definition _extract_nickname (room_db : ChatRoom.t) (current_user : User.t)
  : M World ChatRoom.t :=
  let friend_name := str_split "|" (ChatRoom.room_name room_db) in
  match list_remove (User.nickname current_user) friend_name with
  | None => raise (ValueError "list.remove(x): x not in list")
  | Some friend_name => ret (ChatRoom.set_room_name (str_join friend_name) room_db)
  end.

(** [get_room_by_nickname]: the first room having a member called
    [nickname] and a member called as [current_user], or [None]. *)
Definition get_room_by_nickname (current_user : User.t) (nickname : string)
  : M World (option ChatRoom.t) :=
  gets (fun w =>
    find (fun r => any_nickname nickname r
                   && any_nickname (User.nickname current_user) r)
         (room_table (db w))).

(** [get_room_by_id]; a model instance is always truthy, so
    [all([current_user, filter_result, room_db])] asks that the first and
    the last are not [None] and that the flag is set. *)
Definition get_room_by_id (room_id : Z) (current_user : option User.t)
    (filter_result : bool) : M World ChatRoom.t :=
  room_db <- gets (fun w =>
    match current_user with
    | Some u =>
        find (fun r => any_user_id (User.id u) r && (ChatRoom.id r =? room_id))
             (room_table (db w))
    | None => find (fun r => ChatRoom.id r =? room_id) (room_table (db w))
    end) ;;
  room_db <- match current_user, filter_result, room_db with
             | Some u, true, Some r =>
                 r' <- _extract_nickname r u ;; ret (Some r')
             | _, _, _ => ret room_db
             end ;;
  match room_db with
  | None => raise (NotFoundError "Chat")
  | Some r => ret r
  end.

Definition canonical_label (requester_nickname peer_nickname : string) : string :=
  (requester_nickname ++ "|" ++ peer_nickname)%string.

(** [get_or_create_room] *)
Definition get_or_create_room (current_user : User.t) (other_user_nickname : string)
  : M World ChatRoom.t :=
  user_db <- get_user_by_field other_user_nickname ;;
  found <- get_room_by_nickname current_user other_user_nickname ;;
  match found with
  | Some room_db => ret room_db
  | None =>
      room <- gets (fun w =>
        new_room (canonical_label (User.nickname current_user) other_user_nickname)
                 [user_db; current_user] (db w)) ;;
      db_commit (db_add_room room) ;;;
      get_room_by_id (ChatRoom.id room) (Some current_user) false
  end.

(** [insert_room] *)
Definition insert_room (current_user : User.t) (nickname : string)
  : M World ChatRoom.t :=
  user_db_1 <- get_user_by_nickname nickname ;;
  match user_db_1 with
  | None => raise (NotFoundError "User")
  | Some user_db_1 =>
      room_db <- get_room_by_nickname current_user nickname ;;
      match room_db with
      | Some room_db => _extract_nickname room_db current_user
      | None =>
          room <- gets (fun w =>
            new_room (canonical_label (User.nickname current_user) nickname)
                     [user_db_1; current_user] (db w)) ;;
          db_commit (db_add_room room) ;;;
          get_room_by_id (ChatRoom.id room) (Some current_user) false
      end
  end.

(** [set_room_activity].  [get_room_by_id] raises rather than returning
    [None], so the guard [room_db is not None] holds whenever it is
    reached; the [None] result is kept as the source has it.  The final
    fetch stands after the [try], outside of it: when the [except] branch
    was taken, its query runs on the session that holds the failed
    transaction ([clean] records which branch ran). *)
Definition set_room_activity (room_id : Z) (activity_bool : bool)
  : M World (option ChatRoom.t) :=
  room_db <- (r <- get_room_by_id room_id None true ;; ret (Some r)) ;;
  match room_db with
  | Some _ =>
      clean <- try_except
        (db_execute_write ;;;
         db_commit (db_update_active room_id activity_bool) ;;;
         logger UpdatedRoomActivity ;;;
         ret true)
        (fun e => logger (ErrorSettingActivity e) ;;; ret false) ;;
      (if clean then ret tt else db_execute_on_failed_session) ;;;
      r <- get_room_by_id room_id None true ;;
      ret (Some r)
  | None => ret None
  end.

(** What [upload_message_to_room] hands back: the stored message, or the
    boolean [False]. *)
Inductive message_or_bool : Type :=
  | IsMessage (m : ChatMessage.t)
  | IsBool (b : bool).

(** [room_db.id] on the session's room reference, which may be [None]. *)
Definition room_id_of {S} (room_db : option ChatRoom.t) : M S Z :=
  match room_db with
  | Some r => ret (ChatRoom.id r)
  | None => raise (AttributeError "NoneType" "id")
  end.

(** [upload_message_to_room]; the arguments of [MessageCreate] are
    evaluated inside the [try]. *)
Definition upload_message_to_room `{MessageService} (current_user : User.t)
    (room_db : option ChatRoom.t) (message : json)
  : M World message_or_bool :=
  try_except
    (content <- getitem message "content" ;;
     room_id <- room_id_of room_db ;;
     m <- on_db (create_message
                   {| mc_context := content; mc_room_id := room_id;
                      mc_author_id := User.id current_user |}) ;;
     ret (IsMessage m))
    (fun e => logger (ErrorAddingMessage e) ;;; ret (IsBool false)).

(** [room_db.users.remove(current_user)]: drops the first member that is
    the same row as [current_user]. *)
Fixpoint users_remove (current_user : User.t) (us : list User.t)
  : option (list User.t) :=
  match us with
  | [] => None
  | u :: rest =>
      if User.same u current_user then Some rest
      else match users_remove current_user rest with
           | Some rest' => Some (u :: rest')
           | None => None
           end
  end.

(** [remove_user_from_chat] *)
Definition remove_user_from_chat (current_user : User.t) (room_id : Z)
  : M World unit :=
  room_db <- get_room_by_id room_id (Some current_user) false ;;
  let rooms_user_list := map User.id (ChatRoom.users room_db) in
  if existsb (Z.eqb (User.id current_user)) rooms_user_list then
    logger (RemovingChat room_id) ;;;
    match users_remove current_user (ChatRoom.users room_db) with
    | None => raise (ValueError "list.remove(x): x not in list")
    | Some us =>
        let room_db := ChatRoom.set_users us room_db in
        db_commit (db_save_users room_db) ;;;
        match ChatRoom.users room_db with
        | [] => db_commit (db_delete_room room_db)
        | _ :: _ => ret tt
        end
    end
  else
    logger (NoSuchChat room_id).

(** The loop of [get_user_rooms]: every room of the result is relabelled in
    turn; the first room that cannot be ends the call. *)
Fixpoint extract_each (current_user : User.t) (result : list ChatRoom.t)
  : M World (list ChatRoom.t) :=
  match result with
  | [] => ret []
  | room :: rest =>
      room <- _extract_nickname room current_user ;;
      rest <- extract_each current_user rest ;;
      ret (room :: rest)
  end.

(** [get_user_rooms] *)
Definition get_user_rooms (current_user : User.t) : M World (list ChatRoom.t) :=
  result <- gets (fun w =>
    List.filter (any_user_id (User.id current_user)) (room_table (db w))) ;;
  extract_each current_user result.

End ChatService.

(* ===================================================================== *)
(** ** websocket_chat.py: the session class [ChatRoom]                    *)
(* ===================================================================== *)

Module Session.

(** The fields of [self] the handlers use; [websocket] and [db] are
    handles on the world below. *)
Record Self : Type := {
  current_user : User.t;
  other_user_nickname : string;
  room : option ChatRoom.t
}.

Definition __init__ (current_user : User.t) (other_user_nickname : string) : Self :=
  {| current_user := current_user; other_user_nickname := other_user_nickname;
     room := None |}.

Definition set_room (r : option ChatRoom.t) (me : Self) : Self :=
  {| current_user := current_user me;
     other_user_nickname := other_user_nickname me; room := r |}.

(** A session object together with the world it acts on. *)
Record State : Type := { self : Self; world : World }.

Definition set_self (me : Self) (st : State) : State :=
  {| self := me; world := world st |}.
Definition set_world (w : World) (st : State) : State :=
  {| self := self st; world := w |}.

Definition in_world {A} (m : M World A) : M State A := zoom world set_world m.

(** [message.id] and [message.context] on what [upload_message_to_room]
    returned. *)
Definition message_attr {S A} (attr : string) (proj : ChatMessage.t -> A)
    (new_message : ChatService.message_or_bool) : M S A :=
  match new_message with
  | ChatService.IsMessage m => ret (proj m)
  | ChatService.IsBool _ => raise (AttributeError "bool" attr)
  end.

Definition user_json (u : User.t) : json :=
  dict [("user_id", JInt (User.id u)); ("user_nickname", JStr (User.nickname u))].

Definition backlog_json (message : ChatMessage.t) : json :=
  dict [("message_id", JInt (ChatMessage.id message));
        ("message_context", JStr (ChatMessage.context message));
        ("author_id", JInt (ChatMessage.author_id message))].

(** [on_connect] *)
Definition on_connect `{MessageService} : M State unit :=
  me <- gets self ;;
  if String.eqb (User.nickname (current_user me)) (other_user_nickname me)
  then raise (RuntimeError "The user can't connect to the room")
  else
    r <- in_world (ChatService.get_or_create_room
                     (current_user me) (other_user_nickname me)) ;;
    modify (fun st => set_self (set_room (Some r) (self st)) st) ;;;
    me <- gets self ;;
    chat_messages <-
      try_except_NotFoundError
        (room_id <- ChatService.room_id_of (room me) ;;
         messages <- in_world (on_db (get_all_messages_in_room room_id)) ;;
         ret (map backlog_json messages))
        (ret []) ;;
    room_id <- ChatService.room_id_of (room me) ;;
    let response :=
      dict [("type", JStr "USER_JOIN"); ("room_id", JInt room_id);
            ("user", user_json (current_user me));
            ("chat_messages", JList chat_messages)] in
    room_id <- ChatService.room_id_of (room me) ;;
    in_world (connection_state room_id response).

(** [on_receive], on the document [msg] that [receive_json] delivered. *)
Definition on_receive `{MessageService} (msg : json) : M State unit :=
  me <- gets self ;;
  action <- getitem msg "action" ;;
  if eq_str action "CREATE" then
    new_message <- in_world (ChatService.upload_message_to_room
                               (current_user me) (room me) msg) ;;
    room_id <- ChatService.room_id_of (room me) ;;
    message_id <- message_attr "id" ChatMessage.id new_message ;;
    message_context <- message_attr "context" ChatMessage.context new_message ;;
    let response :=
      dict [("type", JStr "CREATE_MESSAGE"); ("room_id", JInt room_id);
            ("user", user_json (current_user me));
            ("message", dict [("message_id", JInt message_id);
                              ("message_context", JStr message_context)])] in
    room_id <- ChatService.room_id_of (room me) ;;
    in_world (connection_state room_id response)
  else if eq_str action "DELETE" then
    content <- getitem msg "content" ;;
    in_world (on_db (delete_message content)) ;;;
    content <- getitem msg "content" ;;
    let response :=
      dict [("type", JStr "DELETE_MESSAGE"); ("message_id", content)] in
    room_id <- ChatService.room_id_of (room me) ;;
    in_world (connection_state room_id response)
  else if eq_str action "UPDATE" then
    message_id <- getitem msg "message_id" ;;
    content <- getitem msg "content" ;;
    message_db <- in_world (on_db (update_message message_id content)) ;;
    let response :=
      dict [("type", JStr "UPDATE_MESSAGE");
            ("message_id", JInt (ChatMessage.id message_db));
            ("message_context", JStr (ChatMessage.context message_db))] in
    room_id <- ChatService.room_id_of (room me) ;;
    in_world (connection_state room_id response)
  else ret tt.

(** [on_disconnect] *)
Definition on_disconnect : M State unit :=
  me <- gets self ;;
  room_id <- ChatService.room_id_of (room me) ;;
  let response :=
    dict [("type", JStr "USER_LEAVE"); ("room_id", JInt room_id);
          ("user_id", JInt (User.id (current_user me)));
          ("user_nickname", JStr (User.nickname (current_user me)))] in
  room_id <- ChatService.room_id_of (room me) ;;
  in_world (connection_state room_id response).

End Session.

(* ===================================================================== *)
(** ** kafka.py: [KafkaService], the chat relay                           *)
(* ===================================================================== *)

Module KafkaService.

(** A record value on the wire: [json.dumps(doc).encode("utf-8")], read
    back with [json.loads]. *)
Inductive payload : Type := Utf8 (doc : json).

Definition json_dumps_encode (doc : json) : payload := Utf8 doc.
Definition json_loads (value : payload) : json :=
  match value with Utf8 doc => doc end.

(** What the container injects for [Provide["confirmation_topic"]] and
    [Provide["chat_rooms_topic"]]. *)
Record Provide : Type := {
  confirmation_topic : string;
  chat_rooms_topic : string
}.

(** The broker's log per topic, the consumer's subscription, and the
    world of the consuming process. *)
Record State : Type := {
  broker : gmap string (list payload);
  subscription : list string;
  world : World
}.

Definition set_broker (b : gmap string (list payload)) (st : State) : State :=
  {| broker := b; subscription := subscription st; world := world st |}.
Definition set_subscription (ts : list string) (st : State) : State :=
  {| broker := broker st; subscription := ts; world := world st |}.
Definition set_world (w : World) (st : State) : State :=
  {| broker := broker st; subscription := subscription st; world := w |}.

Definition in_world {A} (m : M World A) : M State A := zoom world set_world m.

Definition topic_log (b : gmap string (list payload)) (topic : string) : list payload :=
  default [] (b !! topic).

(** [producer.send_and_wait(topic=..., value=...)] *)
Definition send_and_wait (topic : string) (value : payload) : M State unit :=
  modify (fun st =>
    set_broker (<[topic := topic_log (broker st) topic ++ [value]]> (broker st)) st).

(** [consumer.subscribe(topics=...)] *)
Definition subscribe (topics : list string) : M State unit :=
  modify (set_subscription topics).

(** The records [async for msg in consumer] yields: those of the
    subscribed topics, and of no other. *)
Definition records : M State (list payload) :=
  gets (fun st => concat (map (topic_log (broker st)) (subscription st))).

(** [send_chat_message_producer] *)
Definition send_chat_message_producer (message : json) (chat_rooms_topic : string)
  : M State unit :=
  let value_json := json_dumps_encode message in
  send_and_wait chat_rooms_topic value_json.

(** The body of the loop of [send_chat_message_consumer], over the records
    received so far; an exception ends the loop. *)
Fixpoint consume (msgs : list payload) : M World unit :=
  match msgs with
  | [] => ret tt
  | msg :: rest =>
      let message := json_loads msg in
      room_id <- getitem message "room_id" ;;
      broadcast room_id message ;;;
      consume rest
  end.

(** [send_chat_message_consumer]; its one topic parameter is called
    [confirmation_topic]. *)
Definition send_chat_message_consumer (confirmation_topic : string) : M State unit :=
  subscribe [confirmation_topic] ;;;
  msgs <- records ;;
  in_world (consume msgs).

(** The two coroutines called with their injected defaults. *)
Definition chat_producer (inject : Provide) (message : json) : M State unit :=
  send_chat_message_producer message (chat_rooms_topic inject).

Definition chat_consumer (inject : Provide) : M State unit :=
  send_chat_message_consumer (confirmation_topic inject).

End KafkaService.

(* ===================================================================== *)
(** ** Fixtures and vocabulary of the statements                          *)
(* ===================================================================== *)

(** Does [c] occur in [s]? *)
Fixpoint contains_char (c : ascii) (s : string) : bool :=
  match s with
  | EmptyString => false
  | String c' rest => Ascii.eqb c' c || contains_char c rest
  end.

(** The viewer-facing label of a room name for a nickname, when defined. *)
Definition viewer_label (room_name nickname : string) : option string :=
  option_map str_join (list_remove nickname (str_split "|" room_name)).

(** The rooms of a store that have a member called [a] and one called [b]. *)
Definition pair_rooms (a b : string) (d : DB) : list ChatRoom.t :=
  filter (fun r => ChatService.any_nickname a r && ChatService.any_nickname b r)
         (room_table d).

(** The user table's first row with this nickname, as the user lookups of
    the directory find it. *)
Definition user_named (nickname : string) (d : DB) : option User.t :=
  find (fun u => String.eqb (User.nickname u) nickname) (user_table d).

(** The room [get_or_create_room] and [insert_room] store when there is
    none for the pair. *)
Definition created_room (requester : User.t) (nickname : string) (peer : User.t)
    (d : DB) : ChatRoom.t :=
  new_room (ChatService.canonical_label (User.nickname requester) nickname)
           [peer; requester] d.

(** The primary-key sequence of the rooms table is ahead of every stored id. *)
Definition seq_fresh (d : DB) : Prop :=
  forall r, In r (room_table d) -> ChatRoom.id r < room_id_seq d.

(** A room as its viewer is shown it: the name replaced by the viewer-facing
    label, when that is defined. *)
Definition relabel (viewer : User.t) (r : ChatRoom.t) : ChatRoom.t :=
  match viewer_label (ChatRoom.room_name r) (User.nickname viewer) with
  | Some label => ChatRoom.set_room_name label r
  | None => r
  end.

(** How often a user occurs in a membership list. *)
Definition occurrences (u : User.t) (us : list User.t) : nat :=
  length (List.filter (fun v => User.same v u) us).

(** The routing key of a relayed document, when it has one. *)
Definition event_room_id (doc : json) : option json :=
  match doc with
  | JDict d => d !! "room_id"
  | _ => None
  end.

(** The registry calls a run of the relay loop makes for well-formed
    documents, in order. *)
Definition deliveries (docs : list json) : list ws_call :=
  flat_map (fun doc => match event_room_id doc with
                       | Some room_id => [Broadcast room_id doc]
                       | None => []
                       end) docs.

(** The world after the registry calls [cs] were made, in order. *)
Definition add_ws_calls (cs : list ws_call) (w : World) : World :=
  {| db := db w; io_faults := io_faults w; log := log w;
     ws_calls := ws_calls w ++ cs |}.

(** The encoded records of a list of documents. *)
Definition encode_all (docs : list json) : list KafkaService.payload :=
  map KafkaService.json_dumps_encode docs.

Definition user_join (room_db : ChatRoom.t) (u : User.t) (backlog : list ChatMessage.t)
  : json :=
  dict [("type", JStr "USER_JOIN"); ("room_id", JInt (ChatRoom.id room_db));
        ("user", Session.user_json u);
        ("chat_messages", JList (map Session.backlog_json backlog))].

Module Fixtures.
Definition alice : User.t := User.mk 1 "alice".
Definition bob : User.t := User.mk 2 "bob".
Definition carol : User.t := User.mk 3 "carol".

Definition room_ab : ChatRoom.t := ChatRoom.mk 7 "alice|bob" [bob; alice] true.

Definition db_empty : DB :=
  {| user_table := [alice; bob; carol]; room_table := [];
     message_table := []; room_id_seq := 1; room_active_default := true |}.

Definition db_ab : DB :=
  {| user_table := [alice; bob; carol]; room_table := [room_ab];
     message_table := []; room_id_seq := 8; room_active_default := true |}.

Definition world_of (d : DB) (faults : list bool) : World :=
  {| db := d; io_faults := faults; log := []; ws_calls := [] |}.

(** bob has left [room_ab]; alice is its last member. *)
Definition room_a : ChatRoom.t := ChatRoom.mk 7 "alice|bob" [alice] true.

Definition db_a : DB :=
  {| user_table := [alice; bob; carol]; room_table := [room_a];
     message_table := []; room_id_seq := 8; room_active_default := true |}.

Definition db_none : DB :=
  {| user_table := [alice; bob; carol]; room_table := [];
     message_table := []; room_id_seq := 8; room_active_default := true |}.

(** A Message Store whose every operation fails. *)
Definition failing_store : MessageService :=
  {| create_message := fun _ => raise StoreError;
     delete_message := fun _ => raise StoreError;
     update_message := fun _ _ => raise StoreError;
     get_all_messages_in_room := fun _ => raise StoreError |}.

(** A Message Store that appends, numbers messages by position and takes
    only text as content. *)
Definition list_store : MessageService :=
  {| create_message := fun mc d =>
       match mc_context mc with
       | JStr text =>
           let m := ChatMessage.mk (Z.of_nat (length (message_table d)) + 1)
                      text (mc_room_id mc) (mc_author_id mc) in
           (Ok m,
            {| user_table := user_table d; room_table := room_table d;
               message_table := message_table d ++ [m];
               room_id_seq := room_id_seq d;
               room_active_default := room_active_default d |})
       | _ => (Raise (ValueError "context"), d)
       end;
     delete_message := fun _ => raise (NotFoundError "Message");
     update_message := fun _ _ => raise (NotFoundError "Message");
     get_all_messages_in_room := fun room_id d =>
       (Ok (filter (fun m => ChatMessage.room_id m =? room_id) (message_table d)), d) |}.

(** alice's session with bob, after a completed [on_connect]. *)
Definition session_ab (faults : list bool) : Session.State :=
  {| Session.self := Session.set_room (Some room_ab) (Session.__init__ alice "bob");
     Session.world := world_of db_ab faults |}.

(** alice's session with bob before [on_connect] ran. *)
Definition session_fresh : Session.State :=
  {| Session.self := Session.__init__ alice "bob";
     Session.world := world_of db_ab [] |}.

(** alice trying to chat with herself. *)
Definition session_self_chat : Session.State :=
  {| Session.self := Session.__init__ alice "alice";
     Session.world := world_of db_ab [] |}.

Definition msg_create : json := dict [("action", JStr "CREATE"); ("content", JStr "hi")].
Definition msg_ping : json := dict [("action", JStr "PING"); ("content", JStr "hi")].

Definition inject : KafkaService.Provide :=
  {| KafkaService.confirmation_topic := "confirmation";
     KafkaService.chat_rooms_topic := "chat_rooms" |}.

Definition event_create : json :=
  dict [("type", JStr "CREATE_MESSAGE"); ("room_id", JInt 7);
        ("user", Session.user_json alice);
        ("message", dict [("message_id", JInt 1); ("message_context", JStr "hi")])].

(** A process whose broker holds nothing yet. *)
Definition relay_idle : KafkaService.State :=
  {| KafkaService.broker := ∅; KafkaService.subscription := [];
     KafkaService.world := world_of db_ab [] |}.

(** A process whose broker holds one verification record, as
    [send_confirmation_code_producer] writes them: a JSON string. *)
Definition relay_verifying : KafkaService.State :=
  {| KafkaService.broker :=
       {[ "confirmation" := [KafkaService.json_dumps_encode (JStr "alice@example.org")] ]};
     KafkaService.subscription := [];
     KafkaService.world := world_of db_ab [] |}.

(** A store in which room 7 is kept under alice's view of it. *)
Definition room_stale : ChatRoom.t := ChatRoom.mk 7 "bob" [bob; alice] true.

Definition db_stale : DB :=
  {| user_table := [alice; bob; carol]; room_table := [room_stale];
     message_table := []; room_id_seq := 8; room_active_default := true |}.

(** Room 7 with two messages already stored. *)
Definition history : list ChatMessage.t :=
  [ChatMessage.mk 1 "hello" 7 1; ChatMessage.mk 2 "hi alice" 7 2].

Definition db_history : DB :=
  {| user_table := [alice; bob; carol]; room_table := [room_ab];
     message_table := history; room_id_seq := 8; room_active_default := true |}.

(** bob's session with alice before [on_connect] ran, on that store. *)
Definition session_history : Session.State :=
  {| Session.self := Session.__init__ bob "alice";
     Session.world := world_of db_history [] |}.

Definition msg_delete : json := dict [("action", JStr "DELETE"); ("content", JInt 1)].
Definition msg_update : json :=
  dict [("action", JStr "UPDATE"); ("message_id", JInt 1); ("content", JStr "hey")].

Definition set_message_table (ms : list ChatMessage.t) (d : DB) : DB :=
  {| user_table := user_table d; room_table := room_table d; message_table := ms;
     room_id_seq := room_id_seq d; room_active_default := room_active_default d |}.

(** A Message Store that deletes and rewrites messages by id and raises
    [NotFoundError] for an id it does not hold. *)
Definition table_store : MessageService :=
  {| create_message := @create_message list_store;
     delete_message := fun content d =>
       match content with
       | JInt i =>
           if existsb (fun m => ChatMessage.id m =? i) (message_table d)
           then (Ok tt,
                 set_message_table
                   (List.filter (fun m => negb (ChatMessage.id m =? i)) (message_table d)) d)
           else (Raise (NotFoundError "Message"), d)
       | _ => (Raise (NotFoundError "Message"), d)
       end;
     update_message := fun message_id content d =>
       match message_id, content with
       | JInt i, JStr text =>
           match find (fun m => ChatMessage.id m =? i) (message_table d) with
           | Some m =>
               let m' := ChatMessage.mk i text (ChatMessage.room_id m)
                           (ChatMessage.author_id m) in
               (Ok m',
                set_message_table
                  (map (fun x => if ChatMessage.id x =? i then m' else x)
                       (message_table d)) d)
           | None => (Raise (NotFoundError "Message"), d)
           end
       | _, _ => (Raise (NotFoundError "Message"), d)
       end;
     get_all_messages_in_room := @get_all_messages_in_room list_store |}.

Definition event_leave : json :=
  dict [("type", JStr "USER_LEAVE"); ("room_id", JInt 9); ("user_id", JInt 3);
        ("user_nickname", JStr "carol")].

(** What [send_confirmation_code_producer] publishes: a bare JSON string. *)
Definition verification_record : json := JStr "alice@example.org".
End Fixtures.

(* ===================================================================== *)
(** ** Label derivation                                                   *)
(* ===================================================================== *)

Section Labels.

Lemma str_split_no_separator (sep : ascii) (s : string) :
  contains_char sep s = false -> str_split sep s = [s].
Proof.
  induction s as [|c s IH]; simpl; [reflexivity|].
  intros Hc. apply orb_false_iff in Hc as [Hc Hs].
  rewrite Hc, (IH Hs). reflexivity.
Qed.

Lemma str_split_append (sep : ascii) (a b : string) :
  contains_char sep a = false ->
  str_split sep (a ++ String sep b) = a :: str_split sep b.
Proof.
  induction a as [|c a IH]; simpl.
  - intros _. rewrite Ascii.eqb_refl. reflexivity.
  - intros Hc. apply orb_false_iff in Hc as [Hc Ha].
    rewrite Hc, (IH Ha). reflexivity.
Qed.

Lemma str_split_canonical (a b : string) :
  contains_char "|" a = false -> contains_char "|" b = false ->
  str_split "|" (ChatService.canonical_label a b) = [a; b].
Proof.
  intros Ha Hb. unfold ChatService.canonical_label.
  change ("|" ++ b)%string with (String "|" b).
  rewrite (str_split_append _ _ _ Ha), (str_split_no_separator _ _ Hb).
  reflexivity.
Qed.

Lemma str_join_single (s : string) : str_join [s] = s.
Proof.
  unfold str_join; simpl.
  induction s as [|c s IH]; [reflexivity|].
  change (String c s ++ "")%string with (String c (s ++ "")).
  now rewrite IH.
Qed.

Lemma list_remove_None (x : string) (l : list string) :
  list_remove x l = None <-> ~ In x l.
Proof.
  induction l as [|y l IH]; simpl.
  - tauto.
  - destruct (String.eqb_spec y x) as [->|Hne].
    + split; [discriminate | intros H; exfalso; apply H; now left].
    + destruct (list_remove x l).
      * split; [discriminate|]. intros H. exfalso.
        assert (Hout : ~ In x l) by (intros Hin; apply H; now right).
        apply IH in Hout. discriminate.
      * split; [|reflexivity]. intros _ [Heq|Hin]; [congruence|].
        now apply IH.
Qed.

End Labels.

(** C5 -- Label symmetry.  For a canonical label built from two nicknames
    without the separator, splitting on the separator gives exactly the two
    nicknames; after the derivation the room's name, as the viewer reads
    it, is the other participant's nickname, whichever of the two is the
    viewer (for "alice|bob": alice sees "bob", bob sees "alice"); id,
    members and active flag of the room are as before. *)
Theorem extract_nickname_label_symmetry
    (room_db : ChatRoom.t) (requester peer : User.t) (w : World) :
  contains_char "|" (User.nickname requester) = false ->
  contains_char "|" (User.nickname peer) = false ->
  ChatRoom.room_name room_db
    = ChatService.canonical_label (User.nickname requester) (User.nickname peer) ->
  str_split "|" (ChatRoom.room_name room_db)
    = [User.nickname requester; User.nickname peer]
  /\ (exists shown,
        ChatService._extract_nickname room_db requester w = (Ok shown, w)
        /\ ChatRoom.room_name shown = User.nickname peer
        /\ ChatRoom.id shown = ChatRoom.id room_db
        /\ ChatRoom.users shown = ChatRoom.users room_db
        /\ ChatRoom.active shown = ChatRoom.active room_db)
  /\ (exists shown,
        ChatService._extract_nickname room_db peer w = (Ok shown, w)
        /\ ChatRoom.room_name shown = User.nickname requester
        /\ ChatRoom.id shown = ChatRoom.id room_db
        /\ ChatRoom.users shown = ChatRoom.users room_db
        /\ ChatRoom.active shown = ChatRoom.active room_db).
Proof.
  intros Ha Hb Hname.
  assert (Hsplit := str_split_canonical _ _ Ha Hb). rewrite <- Hname in Hsplit.
  split; [exact Hsplit|].
  unfold ChatService._extract_nickname. rewrite Hsplit. cbn [list_remove].
  rewrite !String.eqb_refl. split.
  - eexists. split; [reflexivity|]. split; [|repeat split].
    cbn [ChatRoom.room_name ChatRoom.set_room_name]. apply str_join_single.
  - destruct (String.eqb_spec (User.nickname requester) (User.nickname peer)) as [Heq|_];
      (eexists; split; [reflexivity|]; split; [|repeat split]);
      cbn [ChatRoom.room_name ChatRoom.set_room_name]; rewrite str_join_single;
      congruence.
Qed.

Lemma extract_nickname_label_symmetry_witness :
  str_split "|" "alice|bob" = ["alice"; "bob"]%string
  /\ (exists shown,
        ChatService._extract_nickname Fixtures.room_ab Fixtures.alice
          (Fixtures.world_of Fixtures.db_ab [])
        = (Ok shown, Fixtures.world_of Fixtures.db_ab [])
        /\ ChatRoom.room_name shown = "bob"%string
        /\ ChatRoom.id shown = 7
        /\ ChatRoom.users shown = [Fixtures.bob; Fixtures.alice]
        /\ ChatRoom.active shown = true)
  /\ (exists shown,
        ChatService._extract_nickname Fixtures.room_ab Fixtures.bob
          (Fixtures.world_of Fixtures.db_ab [])
        = (Ok shown, Fixtures.world_of Fixtures.db_ab [])
        /\ ChatRoom.room_name shown = "alice"%string
        /\ ChatRoom.id shown = 7
        /\ ChatRoom.users shown = [Fixtures.bob; Fixtures.alice]
        /\ ChatRoom.active shown = true).
Proof.
  apply (extract_nickname_label_symmetry Fixtures.room_ab Fixtures.alice Fixtures.bob);
    reflexivity.
Defined.

(** C10 -- The derivation is defined exactly on the tokens of the label: a
    viewer whose nickname is one of the tokens obtained by splitting gets a
    label, and a viewer whose nickname is not among them gets the
    [ValueError] of [list.remove] and no label. *)
Theorem extract_nickname_missing_token_raises
    (room_db : ChatRoom.t) (viewer : User.t) (w : World) :
  (In (User.nickname viewer) (str_split "|" (ChatRoom.room_name room_db)) ->
     exists label, ChatService._extract_nickname room_db viewer w
                   = (Ok (ChatRoom.set_room_name label room_db), w))
  /\ (~ In (User.nickname viewer) (str_split "|" (ChatRoom.room_name room_db)) ->
     ChatService._extract_nickname room_db viewer w
     = (Raise (ValueError "list.remove(x): x not in list"), w)).
Proof.
  unfold ChatService._extract_nickname. split.
  - intros Hin.
    destruct (list_remove (User.nickname viewer)
                (str_split "|" (ChatRoom.room_name room_db))) as [rest|] eqn:Hrm.
    + now exists (str_join rest).
    + apply list_remove_None in Hrm. contradiction.
  - intros Hout. apply list_remove_None in Hout. now rewrite Hout.
Qed.

Lemma extract_nickname_missing_token_raises_witness :
  ChatService._extract_nickname Fixtures.room_ab Fixtures.carol
    (Fixtures.world_of Fixtures.db_ab [])
  = (Raise (ValueError "list.remove(x): x not in list"),
     Fixtures.world_of Fixtures.db_ab []).
Proof.
  apply (proj2 (extract_nickname_missing_token_raises
                  Fixtures.room_ab Fixtures.carol (Fixtures.world_of Fixtures.db_ab []))).
  simpl. intros [H|[H|[]]]; discriminate H.
Defined.

(* ===================================================================== *)
(** ** Room resolution                                                    *)
(* ===================================================================== *)

Ltac run_py :=
  cbv beta iota delta
    [bind ret raise gets modify try_except try_except_NotFoundError zoom
     logger db_commit db_execute_write db_execute_on_failed_session next_fault on_db
     get_user_by_field get_user_by_nickname connection_state broadcast] in *.

Section Resolution.

Variables (requester : User.t) (nickname : string).

Let both (r : ChatRoom.t) : bool :=
  ChatService.any_nickname nickname r
  && ChatService.any_nickname (User.nickname requester) r.

Lemma find_app_None {A} (p : A -> bool) (l1 l2 : list A) :
  find p l1 = None -> find p (l1 ++ l2) = find p l2.
Proof.
  induction l1 as [|x l1 IH]; simpl; [reflexivity|].
  destruct (p x); [discriminate | exact IH].
Qed.

Lemma find_app_Some {A} (p : A -> bool) (l1 l2 : list A) (x : A) :
  find p l1 = Some x -> find p (l1 ++ l2) = Some x.
Proof.
  induction l1 as [|y l1 IH]; simpl; [discriminate|].
  destruct (p y); [trivial | exact IH].
Qed.

Lemma find_none_of {A} (p : A -> bool) (l : list A) :
  (forall x, In x l -> p x = false) -> find p l = None.
Proof.
  induction l as [|x l IH]; simpl; intros H; [reflexivity|].
  rewrite (H x (or_introl eq_refl)). apply IH. intros y Hy. apply H. now right.
Qed.

Lemma created_room_has_both (peer : User.t) (d : DB) :
  User.nickname peer = nickname -> both (created_room requester nickname peer d) = true.
Proof.
  intros Hp. unfold both, ChatService.any_nickname; simpl.
  rewrite Hp, !String.eqb_refl. simpl. now rewrite orb_true_r.
Qed.

(** Re-fetching the row just stored, by its id and for the requester. *)
Lemma refetch_created (peer : User.t) (w : World) :
  seq_fresh (db w) ->
  ChatService.get_room_by_id (room_id_seq (db w)) (Some requester) false
    (set_db (db_add_room (created_room requester nickname peer (db w)) (db w)) w)
  = (Ok (created_room requester nickname peer (db w)),
     set_db (db_add_room (created_room requester nickname peer (db w)) (db w)) w).
Proof.
  intros Hfresh. unfold ChatService.get_room_by_id. run_py. simpl.
  rewrite find_app_None.
  - simpl. unfold ChatService.any_user_id. simpl.
    rewrite !Z.eqb_refl, orb_true_r. reflexivity.
  - apply find_none_of. intros r Hr. apply Hfresh in Hr.
    apply andb_false_iff. right. apply Z.eqb_neq. lia.
Qed.

Lemma user_named_nickname (d : DB) (peer : User.t) :
  user_named nickname d = Some peer -> User.nickname peer = nickname.
Proof.
  unfold user_named. intros H. apply find_some in H as [_ H].
  now apply String.eqb_eq.
Qed.

Lemma get_or_create_room_found (w : World) (peer : User.t) (room_db : ChatRoom.t) :
  user_named nickname (db w) = Some peer ->
  ChatService.get_room_by_nickname requester nickname w = (Ok (Some room_db), w) ->
  ChatService.get_or_create_room requester nickname w = (Ok room_db, w).
Proof.
  unfold ChatService.get_or_create_room, ChatService.get_room_by_nickname, user_named.
  run_py. intros -> Hfound. injection Hfound as ->. reflexivity.
Qed.

Lemma get_or_create_room_created (w : World) (peer : User.t) :
  user_named nickname (db w) = Some peer ->
  io_faults w = [] ->
  seq_fresh (db w) ->
  ChatService.get_room_by_nickname requester nickname w = (Ok None, w) ->
  ChatService.get_or_create_room requester nickname w
  = (Ok (created_room requester nickname peer (db w)),
     set_db (db_add_room (created_room requester nickname peer (db w)) (db w)) w).
Proof.
  intros Hu Hio Hfresh Hnone.
  assert (Hre := refetch_created peer w Hfresh).
  unfold ChatService.get_or_create_room, ChatService.get_room_by_nickname, user_named in *.
  run_py. rewrite Hu. injection Hnone as ->. rewrite Hio. exact Hre.
Qed.

Lemma insert_room_found (w : World) (peer : User.t) (room_db : ChatRoom.t) :
  user_named nickname (db w) = Some peer ->
  ChatService.get_room_by_nickname requester nickname w = (Ok (Some room_db), w) ->
  ChatService.insert_room requester nickname w
  = ChatService._extract_nickname room_db requester w.
Proof.
  unfold ChatService.insert_room, ChatService.get_room_by_nickname, user_named.
  run_py. intros -> Hfound. injection Hfound as ->. reflexivity.
Qed.

Lemma insert_room_created (w : World) (peer : User.t) :
  user_named nickname (db w) = Some peer ->
  io_faults w = [] ->
  seq_fresh (db w) ->
  ChatService.get_room_by_nickname requester nickname w = (Ok None, w) ->
  ChatService.insert_room requester nickname w
  = (Ok (created_room requester nickname peer (db w)),
     set_db (db_add_room (created_room requester nickname peer (db w)) (db w)) w).
Proof.
  intros Hu Hio Hfresh Hnone.
  assert (Hre := refetch_created peer w Hfresh).
  unfold ChatService.insert_room, ChatService.get_room_by_nickname, user_named in *.
  run_py. rewrite Hu. injection Hnone as ->. rewrite Hio. exact Hre.
Qed.

End Resolution.

Section ResolutionClaims.

Import Fixtures.

(** C3 (the claim as written fails) -- [get_or_create_room] hands back
    the room found for the pair under its stored name, and both
    [get_or_create_room] and [insert_room] hand back a room they have just
    created under its canonical label: for viewer alice the label of
    "alice|bob" would be "bob".  And where the stored name of the pair's
    room does not have the requester's nickname among its tokens,
    [insert_room] returns no room at all. *)
Lemma resolve_or_create_label_counterexample :
  viewer_label "alice|bob" "alice" = Some "bob"%string
  /\ (exists r w',
        ChatService.get_or_create_room alice "bob" (world_of db_ab []) = (Ok r, w')
        /\ ChatRoom.room_name r = "alice|bob"%string
        /\ Some (ChatRoom.room_name r) <> viewer_label "alice|bob" "alice")
  /\ (exists r w',
        ChatService.get_or_create_room alice "bob" (world_of db_empty []) = (Ok r, w')
        /\ ChatRoom.room_name r = "alice|bob"%string
        /\ Some (ChatRoom.room_name r) <> viewer_label "alice|bob" "alice")
  /\ (exists r w',
        ChatService.insert_room alice "bob" (world_of db_empty []) = (Ok r, w')
        /\ ChatRoom.room_name r = "alice|bob"%string
        /\ Some (ChatRoom.room_name r) <> viewer_label "alice|bob" "alice")
  /\ (ChatService.get_room_by_nickname alice "bob" (world_of db_stale [])
        = (Ok (Some room_stale), world_of db_stale [])
      /\ ChatService.insert_room alice "bob" (world_of db_stale [])
        = (Raise (ValueError "list.remove(x): x not in list"), world_of db_stale [])).
Proof.
  split; [reflexivity|].
  split; [|split; [|split]].
  - eexists; eexists.
    split; [vm_compute; reflexivity | split; [reflexivity | discriminate]].
  - eexists; eexists.
    split; [vm_compute; reflexivity | split; [reflexivity | discriminate]].
  - eexists; eexists.
    split; [vm_compute; reflexivity | split; [reflexivity | discriminate]].
  - split; reflexivity.
Qed.

Lemma viewer_label_of_pair (a b : string) :
  contains_char "|" a = false -> contains_char "|" b = false ->
  viewer_label (ChatService.canonical_label a b) a = Some b
  /\ viewer_label (ChatService.canonical_label b a) a = Some b.
Proof.
  intros Ha Hb. unfold viewer_label.
  rewrite (str_split_canonical _ _ Ha Hb), (str_split_canonical _ _ Hb Ha).
  cbn [list_remove]. rewrite !String.eqb_refl. split.
  - cbn [option_map]. now rewrite str_join_single.
  - destruct (String.eqb_spec b a) as [->|_]; cbn [option_map];
      now rewrite str_join_single.
Qed.

(** C3 (as amended) -- For a requester and a known peer nickname, on a
    healthy store whose room-id sequence is ahead of the ids in use.  When
    a room for the pair exists, [get_or_create_room] returns it under its
    stored name; [insert_room] returns it with the viewer-facing label
    applied -- the name read from the returned room is the label of the
    stored name, id, members and flag being those of the stored room --
    provided the requester's nickname is one of the tokens of the stored
    name, and raises [ValueError] otherwise; for a room stored under the
    canonical label of the pair, in either order and with nicknames free
    of the separator, the name returned is the peer's nickname.  When no
    room exists, both create a room with canonical label
    "<requester.nickname>|<peer.nickname>" and members peer and requester,
    re-fetch it without label filtering and return it under that canonical
    label. *)
Theorem resolve_or_create_label
    (requester : User.t) (nickname : string) (peer : User.t) (w : World) :
  user_named nickname (db w) = Some peer ->
  io_faults w = [] ->
  seq_fresh (db w) ->
  (forall room_db,
     ChatService.get_room_by_nickname requester nickname w = (Ok (Some room_db), w) ->
     ChatService.get_or_create_room requester nickname w = (Ok room_db, w)
     /\ (In (User.nickname requester) (str_split "|" (ChatRoom.room_name room_db)) ->
         exists shown,
           ChatService.insert_room requester nickname w = (Ok shown, w)
           /\ viewer_label (ChatRoom.room_name room_db) (User.nickname requester)
              = Some (ChatRoom.room_name shown)
           /\ ChatRoom.id shown = ChatRoom.id room_db
           /\ ChatRoom.users shown = ChatRoom.users room_db
           /\ ChatRoom.active shown = ChatRoom.active room_db)
     /\ (~ In (User.nickname requester) (str_split "|" (ChatRoom.room_name room_db)) ->
         ChatService.insert_room requester nickname w
         = (Raise (ValueError "list.remove(x): x not in list"), w))
     /\ (contains_char "|" (User.nickname requester) = false ->
         contains_char "|" nickname = false ->
         ChatRoom.room_name room_db
           = ChatService.canonical_label (User.nickname requester) nickname
         \/ ChatRoom.room_name room_db
           = ChatService.canonical_label nickname (User.nickname requester) ->
         exists shown,
           ChatService.insert_room requester nickname w = (Ok shown, w)
           /\ ChatRoom.room_name shown = nickname))
  /\ (ChatService.get_room_by_nickname requester nickname w = (Ok None, w) ->
      let room := created_room requester nickname peer (db w) in
      let w' := set_db (db_add_room room (db w)) w in
      ChatRoom.room_name room
        = ChatService.canonical_label (User.nickname requester) nickname
      /\ ChatService.get_or_create_room requester nickname w = (Ok room, w')
      /\ ChatService.insert_room requester nickname w = (Ok room, w')).
Proof.
  intros Hu Hio Hfresh. split.
  - intros room_db Hfound.
    assert (Hdefined : forall label,
              viewer_label (ChatRoom.room_name room_db) (User.nickname requester)
                = Some label ->
              exists shown,
                ChatService.insert_room requester nickname w = (Ok shown, w)
                /\ ChatRoom.room_name shown = label
                /\ ChatRoom.id shown = ChatRoom.id room_db
                /\ ChatRoom.users shown = ChatRoom.users room_db
                /\ ChatRoom.active shown = ChatRoom.active room_db).
    { intros label Hlabel. rewrite (insert_room_found _ _ _ _ _ Hu Hfound).
      unfold ChatService._extract_nickname. unfold viewer_label in Hlabel.
      destruct (list_remove (User.nickname requester)
                  (str_split "|" (ChatRoom.room_name room_db))); [|discriminate].
      simpl in Hlabel. injection Hlabel as <-.
      eexists. split; [reflexivity|]. repeat split. }
    split; [exact (get_or_create_room_found _ _ _ _ _ Hu Hfound)|].
    split; [|split].
    + intros Hin.
      destruct (viewer_label (ChatRoom.room_name room_db) (User.nickname requester))
        as [label|] eqn:Hlabel.
      * destruct (Hdefined label eq_refl) as (shown & Hrun & Hname & Hrest).
        exists shown. split; [exact Hrun|]. split; [now rewrite Hname | exact Hrest].
      * exfalso. unfold viewer_label in Hlabel.
        destruct (list_remove _ _) eqn:Hrm; [discriminate|].
        apply list_remove_None in Hrm. contradiction.
    + intros Hout. rewrite (insert_room_found _ _ _ _ _ Hu Hfound).
      unfold ChatService._extract_nickname.
      apply list_remove_None in Hout. now rewrite Hout.
    + intros Ha Hb Hname.
      destruct (viewer_label_of_pair _ _ Ha Hb) as [Hfirst Hsecond].
      assert (Hlabel : viewer_label (ChatRoom.room_name room_db)
                         (User.nickname requester) = Some nickname)
        by (destruct Hname as [-> | ->]; assumption).
      destruct (Hdefined nickname Hlabel) as (shown & Hrun & Hshown & _).
      now exists shown.
  - intros Hnone. cbv zeta. split; [reflexivity|]. split.
    + exact (get_or_create_room_created _ _ _ _ Hu Hio Hfresh Hnone).
    + exact (insert_room_created _ _ _ _ Hu Hio Hfresh Hnone).
Qed.

Lemma resolve_or_create_label_witness :
  (exists shown,
     ChatService.insert_room alice "bob" (world_of db_ab [])
       = (Ok shown, world_of db_ab [])
     /\ ChatRoom.room_name shown = "bob"%string)
  /\ ChatService.get_or_create_room alice "bob" (world_of db_ab [])
    = (Ok room_ab, world_of db_ab [])
  /\ ChatService.insert_room alice "bob" (world_of db_stale [])
    = (Raise (ValueError "list.remove(x): x not in list"), world_of db_stale []).
Proof.
  assert (Hfresh : seq_fresh (db (world_of db_ab []))).
  { intros r [<-|[]]. reflexivity. }
  assert (Hfresh' : seq_fresh (db (world_of db_stale []))).
  { intros r [<-|[]]. reflexivity. }
  destruct (resolve_or_create_label alice "bob" bob (world_of db_ab [])
              eq_refl eq_refl Hfresh) as [Hfound _].
  destruct (Hfound room_ab eq_refl) as (Hget & _ & _ & Hpair).
  destruct (resolve_or_create_label alice "bob" bob (world_of db_stale [])
              eq_refl eq_refl Hfresh') as [Hstale _].
  destruct (Hstale room_stale eq_refl) as (_ & _ & Hraise & _).
  split; [apply Hpair; [reflexivity | reflexivity | left; reflexivity]|].
  split; [exact Hget|].
  apply Hraise. simpl. intros [H|[]]. discriminate H.
Defined.

End ResolutionClaims.

Section Idempotence.

Lemma find_pointwise {A} (p q : A -> bool) (l : list A) :
  (forall x, p x = q x) -> find p l = find q l.
Proof.
  intros Hpq. induction l as [|x l IH]; simpl; [reflexivity|].
  rewrite Hpq, IH. reflexivity.
Qed.

Lemma filter_pointwise {A} (p q : A -> bool) (l : list A) :
  (forall x, p x = q x) -> List.filter p l = List.filter q l.
Proof.
  intros Hpq. induction l as [|x l IH]; simpl; [reflexivity|].
  rewrite Hpq, IH. reflexivity.
Qed.

Lemma find_None_filter {A} (p : A -> bool) (l : list A) :
  find p l = None -> List.filter p l = [].
Proof.
  induction l as [|x l IH]; simpl; [reflexivity|].
  destruct (p x); [discriminate | exact IH].
Qed.

Lemma find_is_Some {A} (p : A -> bool) (l : list A) (x : A) :
  In x l -> p x = true -> exists y, find p l = Some y /\ p y = true.
Proof.
  induction l as [|z l IH]; simpl; [tauto|].
  intros [->|Hin] Hx.
  - rewrite Hx. eauto.
  - destruct (p z) eqn:Hz; [eauto | now apply IH].
Qed.

Variables (a b pa pb : User.t) (w : World).
Hypothesis known_a : user_named (User.nickname a) (db w) = Some pa.
Hypothesis known_b : user_named (User.nickname b) (db w) = Some pb.
Hypothesis healthy : io_faults w = [].

Let room := created_room a (User.nickname b) pb (db w).
Let w1 := set_db (db_add_room room (db w)) w.

(** Without assuming anything on the stored ids: the re-fetch after a
    creation finds a row carrying the id just drawn from the sequence. *)
Lemma get_or_create_room_created_id :
  ChatService.get_room_by_nickname a (User.nickname b) w = (Ok None, w) ->
  exists r1, ChatService.get_or_create_room a (User.nickname b) w = (Ok r1, w1)
             /\ ChatRoom.id r1 = room_id_seq (db w).
Proof.
  intros Hnone.
  destruct (find_is_Some
              (fun r => ChatService.any_user_id (User.id a) r
                        && (ChatRoom.id r =? room_id_seq (db w)))
              (room_table (db w1)) room) as (r1 & Hfind & Hr1).
  { simpl. apply in_or_app. right. now left. }
  { unfold ChatService.any_user_id. simpl. now rewrite !Z.eqb_refl, orb_true_r. }
  exists r1. split.
  - unfold ChatService.get_or_create_room, ChatService.get_room_by_nickname,
      ChatService.get_room_by_id, user_named in *.
    run_py. rewrite known_b. injection Hnone as ->. rewrite healthy.
    simpl in Hfind |- *. unfold room, created_room in Hfind. rewrite Hfind. reflexivity.
  - apply andb_true_iff in Hr1 as [_ Hid]. now apply Z.eqb_eq.
Qed.

Lemma lookup_after_creation :
  ChatService.get_room_by_nickname a (User.nickname b) w = (Ok None, w) ->
  ChatService.get_room_by_nickname a (User.nickname b) w1 = (Ok (Some room), w1).
Proof.
  unfold ChatService.get_room_by_nickname. run_py. intros Hnone.
  injection Hnone as Hnone. simpl. rewrite (find_app_None _ _ _ Hnone). simpl.
  unfold room. rewrite created_room_has_both; [reflexivity|].
  exact (user_named_nickname _ _ _ known_b).
Qed.

Lemma lookup_symmetric (w' : World) :
  ChatService.get_room_by_nickname b (User.nickname a) w'
  = ChatService.get_room_by_nickname a (User.nickname b) w'.
Proof.
  unfold ChatService.get_room_by_nickname. run_py. f_equal. f_equal.
  apply find_pointwise. intros r. apply andb_comm.
Qed.

Lemma pair_rooms_of_lookup (d : DB) :
  pair_rooms (User.nickname a) (User.nickname b) d
  = List.filter (fun r => ChatService.any_nickname (User.nickname b) r
                          && ChatService.any_nickname (User.nickname a) r)
                (room_table d).
Proof. apply filter_pointwise. intros r. apply andb_comm. Qed.

(** C4 -- Idempotent room creation.  With both users known and a healthy
    store holding at most one room for the pair, [get_or_create_room a b]
    returns a room; calling it again at once, in the same or in the
    symmetric direction, returns a room of the same id and changes
    nothing; at most one room for the pair is left; and the lookup by
    nickname finds the same room from either direction. *)
Theorem get_or_create_room_idempotent :
  (length (pair_rooms (User.nickname a) (User.nickname b) (db w)) <= 1)%nat ->
  exists r1 w',
    ChatService.get_or_create_room a (User.nickname b) w = (Ok r1, w')
    /\ (exists r2, ChatService.get_or_create_room a (User.nickname b) w' = (Ok r2, w')
                   /\ ChatRoom.id r2 = ChatRoom.id r1)
    /\ (exists r3, ChatService.get_or_create_room b (User.nickname a) w' = (Ok r3, w')
                   /\ ChatRoom.id r3 = ChatRoom.id r1)
    /\ (length (pair_rooms (User.nickname a) (User.nickname b) (db w')) <= 1)%nat
    /\ (exists r, ChatService.get_room_by_nickname a (User.nickname b) w'
                    = (Ok (Some r), w')
                  /\ ChatService.get_room_by_nickname b (User.nickname a) w'
                    = (Ok (Some r), w')
                  /\ ChatRoom.id r = ChatRoom.id r1).
Proof.
  intros Hone.
  destruct (find (fun r => ChatService.any_nickname (User.nickname b) r
                           && ChatService.any_nickname (User.nickname a) r)
                 (room_table (db w))) as [r|] eqn:Hfind.
  - assert (Hlook : ChatService.get_room_by_nickname a (User.nickname b) w
                    = (Ok (Some r), w)).
    { unfold ChatService.get_room_by_nickname. run_py. now rewrite Hfind. }
    assert (Hsym := lookup_symmetric w). rewrite Hlook in Hsym.
    exists r, w. repeat split.
    + exact (get_or_create_room_found _ _ _ _ _ known_b Hlook).
    + exists r. split; [|reflexivity].
      exact (get_or_create_room_found _ _ _ _ _ known_b Hlook).
    + exists r. split; [|reflexivity].
      exact (get_or_create_room_found _ _ _ _ _ known_a Hsym).
    + exact Hone.
    + exists r. auto.
  - assert (Hlook : ChatService.get_room_by_nickname a (User.nickname b) w
                    = (Ok None, w)).
    { unfold ChatService.get_room_by_nickname. run_py. now rewrite Hfind. }
    destruct (get_or_create_room_created_id Hlook) as (r1 & Hcreate & Hid).
    assert (Hlook1 := lookup_after_creation Hlook).
    assert (Hsym := lookup_symmetric w1). rewrite Hlook1 in Hsym.
    assert (Hroom : ChatRoom.id room = ChatRoom.id r1) by (now rewrite Hid).
    exists r1, w1. repeat split.
    + exact Hcreate.
    + exists room. split; [|exact Hroom].
      exact (get_or_create_room_found a _ w1 pb room known_b Hlook1).
    + exists room. split; [|exact Hroom].
      exact (get_or_create_room_found b _ w1 pa room known_a Hsym).
    + rewrite pair_rooms_of_lookup. simpl. rewrite List.filter_app.
      rewrite (find_None_filter _ _ Hfind). simpl.
      unfold room. rewrite created_room_has_both; [simpl; lia|].
      exact (user_named_nickname _ _ _ known_b).
    + exists room. auto.
Qed.

End Idempotence.

Lemma get_or_create_room_idempotent_witness :
  exists r1 w',
    ChatService.get_or_create_room Fixtures.alice "bob"
      (Fixtures.world_of Fixtures.db_empty []) = (Ok r1, w')
    /\ (exists r2, ChatService.get_or_create_room Fixtures.alice "bob" w' = (Ok r2, w')
                   /\ ChatRoom.id r2 = ChatRoom.id r1)
    /\ (exists r3, ChatService.get_or_create_room Fixtures.bob "alice" w' = (Ok r3, w')
                   /\ ChatRoom.id r3 = ChatRoom.id r1)
    /\ (length (pair_rooms "alice" "bob" (db w')) <= 1)%nat
    /\ (exists r, ChatService.get_room_by_nickname Fixtures.alice "bob" w'
                    = (Ok (Some r), w')
                  /\ ChatService.get_room_by_nickname Fixtures.bob "alice" w'
                    = (Ok (Some r), w')
                  /\ ChatRoom.id r = ChatRoom.id r1).
Proof.
  apply (get_or_create_room_idempotent Fixtures.alice Fixtures.bob
           Fixtures.alice Fixtures.bob (Fixtures.world_of Fixtures.db_empty []));
    [reflexivity | reflexivity | reflexivity | simpl; lia].
Defined.

(* ===================================================================== *)
(** ** Activity flag and membership                                       *)
(* ===================================================================== *)

Section Activity.

Variables (room_id : Z) (activity_bool : bool) (w : World) (room_db : ChatRoom.t).

(** The room exists: the unfiltered fetch by id finds it. *)
Hypothesis existing :
  ChatService.get_room_by_id room_id None true w = (Ok room_db, w).

Lemma fetch_ignores_schedule_and_log (w' : World) :
  db w' = db w ->
  ChatService.get_room_by_id room_id None true w' = (Ok room_db, w').
Proof.
  intros Hdb. revert existing.
  unfold ChatService.get_room_by_id. run_py. rewrite Hdb.
  destruct (find _ _); intros H; [|discriminate].
  injection H as ->. reflexivity.
Qed.

(** A failed flip.  When the update statement or its commit fails, the
    error is caught and logged and the store is as before; the fetch that
    follows the [try] then decides: if it goes through, the unmodified
    room is returned, and if it fails on the session left behind, its
    error is raised. *)
Lemma set_room_activity_failed_flip (later : list bool) :
  io_faults w = true :: later \/ io_faults w = false :: true :: later ->
  ChatService.set_room_activity room_id activity_bool w
  = (if hd false later then Raise StoreError else Ok (Some room_db),
     add_log (ErrorSettingActivity StoreError) (set_io_faults (tl later) w)).
Proof.
  intros Hio.
  assert (Hre := fetch_ignores_schedule_and_log
                   (add_log (ErrorSettingActivity StoreError)
                      (set_io_faults (tl later) w)) eq_refl).
  unfold ChatService.set_room_activity.
  cbv beta iota delta [bind ret]. rewrite existing. cbv beta iota delta [bind ret].
  destruct Hio as [Hio|Hio]; run_py; rewrite Hio; simpl;
    destruct later as [|[|] later']; simpl;
    unfold add_log, set_io_faults in *; simpl in *; rewrite ?Hre; reflexivity.
Qed.

End Activity.

(** C7 -- Best-effort activity flip.  On the existing room 7 the update
    statement fails (or goes through and its commit fails); the error is
    caught and logged and the store is unchanged.  The fetch of the room
    that follows is outside the [try] and runs on the session that was not
    rolled back: when the persistence layer refuses it, its error is
    raised out of [set_room_activity], where the method is described as
    never raising and still returning the room.  Only when that fetch goes
    through is the unmodified room returned. *)
Theorem set_room_activity_refetch_unguarded :
  ChatService.set_room_activity 7 false (Fixtures.world_of Fixtures.db_ab [true; true])
    = (Raise StoreError,
       {| db := Fixtures.db_ab; io_faults := [];
          log := [ErrorSettingActivity StoreError]; ws_calls := [] |})
  /\ ChatService.set_room_activity 7 false
       (Fixtures.world_of Fixtures.db_ab [false; true; true])
     = (Raise StoreError,
        {| db := Fixtures.db_ab; io_faults := [];
           log := [ErrorSettingActivity StoreError]; ws_calls := [] |})
  /\ ChatService.set_room_activity 7 false (Fixtures.world_of Fixtures.db_ab [true; false])
     = (Ok (Some Fixtures.room_ab),
        {| db := Fixtures.db_ab; io_faults := [];
           log := [ErrorSettingActivity StoreError]; ws_calls := [] |}).
Proof.
  pose proof (set_room_activity_failed_flip 7 false
                (Fixtures.world_of Fixtures.db_ab [true; true]) Fixtures.room_ab
                eq_refl [true] (or_introl eq_refl)) as H1.
  pose proof (set_room_activity_failed_flip 7 false
                (Fixtures.world_of Fixtures.db_ab [false; true; true]) Fixtures.room_ab
                eq_refl [true] (or_intror eq_refl)) as H2.
  pose proof (set_room_activity_failed_flip 7 false
                (Fixtures.world_of Fixtures.db_ab [true; false]) Fixtures.room_ab
                eq_refl [false] (or_introl eq_refl)) as H3.
  split; [exact H1 | split; [exact H2 | exact H3]].
Qed.

(** On a healthy store the flag is flipped and the updated room returned. *)
Example set_room_activity_healthy :
  ChatService.set_room_activity 7 false (Fixtures.world_of Fixtures.db_ab [])
  = (Ok (Some (ChatRoom.set_active false Fixtures.room_ab)),
     {| db := db_update_active 7 false Fixtures.db_ab; io_faults := [];
        log := [UpdatedRoomActivity]; ws_calls := [] |}).
Proof. reflexivity. Qed.

Section Membership.

Variables (current_user : User.t) (room_id : Z).

Lemma member_ids (us : list User.t) :
  existsb (Z.eqb (User.id current_user)) (map User.id us)
  = existsb (fun u => User.id u =? User.id current_user) us.
Proof.
  induction us as [|u us IH]; simpl; [reflexivity|].
  now rewrite IH, Z.eqb_sym.
Qed.

(** The fetch that opens [remove_user_from_chat] is filtered by the
    user: for somebody who is in no room of that id it raises. *)
Lemma remove_user_from_chat_non_member (w : World) :
  (forall r, In r (room_table (db w)) -> ChatRoom.id r = room_id ->
             ChatService.any_user_id (User.id current_user) r = false) ->
  ChatService.remove_user_from_chat current_user room_id w
  = (Raise (NotFoundError "Chat"), w).
Proof.
  intros Hout.
  unfold ChatService.remove_user_from_chat, ChatService.get_room_by_id. run_py.
  rewrite find_none_of; [reflexivity|].
  intros r Hr. destruct (Z.eqb_spec (ChatRoom.id r) room_id) as [Hid|_].
  - now rewrite (Hout r Hr Hid).
  - apply andb_false_r.
Qed.

(** X25 -- Whenever the fetch returns, the user is found among the members,
    so the branch that logs [NoSuchChat] is never taken: no call of
    [remove_user_from_chat] adds that entry to the log. *)
Lemma remove_user_from_chat_never_logs_no_such_chat (w : World) :
  ~ In (NoSuchChat room_id) (log w) ->
  ~ In (NoSuchChat room_id)
      (log (snd (ChatService.remove_user_from_chat current_user room_id w))).
Proof.
  intros Hlog.
  unfold ChatService.remove_user_from_chat, ChatService.get_room_by_id. run_py.
  destruct (find _ _) as [r|] eqn:Hfind; [|exact Hlog].
  apply find_some in Hfind as [_ Hr]. apply andb_true_iff in Hr as [Hmem _].
  unfold ChatService.any_user_id in Hmem. rewrite member_ids, Hmem.
  assert (Hlog' : ~ In (NoSuchChat room_id) (log w ++ [RemovingChat room_id])).
  { intros Hin. apply in_app_or in Hin as [Hin|[Hin|[]]]; [tauto | discriminate]. }
  destruct (ChatService.users_remove current_user (ChatRoom.users r)) as [us|];
    [|exact Hlog'].
  destruct us as [|u us]; simpl;
    destruct (io_faults w) as [|[|] fs] eqn:Hio; simpl;
    rewrite ?Hio; simpl; try exact Hlog'.
  destruct fs as [|[|] fs']; simpl; exact Hlog'.
Qed.

End Membership.

(** A two-member room that one member leaves keeps the other member and
    is not deleted. *)
Example remove_user_from_chat_shrinks :
  ChatService.remove_user_from_chat Fixtures.bob 7 (Fixtures.world_of Fixtures.db_ab [])
  = (Ok tt, {| db := Fixtures.db_a; io_faults := []; log := [RemovingChat 7];
               ws_calls := [] |}).
Proof. reflexivity. Qed.

(** When the last member leaves, the room is deleted. *)
Example remove_user_from_chat_deletes :
  ChatService.remove_user_from_chat Fixtures.alice 7 (Fixtures.world_of Fixtures.db_a [])
  = (Ok tt, {| db := Fixtures.db_none; io_faults := []; log := [RemovingChat 7];
               ws_calls := [] |}).
Proof. reflexivity. Qed.

(** C6 -- Leaving a room one is not a member of.  carol, who is not a
    member of room 7, calls [remove_user_from_chat]: the call raises
    [NotFoundError] from the filtered fetch and writes no log entry, where
    a no-op with a log entry is described; store and log are as before. *)
Theorem remove_user_from_chat_non_member_raises :
  ChatService.any_user_id (User.id Fixtures.carol) Fixtures.room_ab = false
  /\ ChatService.remove_user_from_chat Fixtures.carol 7
       (Fixtures.world_of Fixtures.db_ab [])
     = (Raise (NotFoundError "Chat"), Fixtures.world_of Fixtures.db_ab [])
  /\ log (snd (ChatService.remove_user_from_chat Fixtures.carol 7
                 (Fixtures.world_of Fixtures.db_ab []))) = [].
Proof.
  split; [reflexivity|].
  assert (H : ChatService.remove_user_from_chat Fixtures.carol 7
                (Fixtures.world_of Fixtures.db_ab [])
              = (Raise (NotFoundError "Chat"), Fixtures.world_of Fixtures.db_ab [])).
  { apply remove_user_from_chat_non_member.
    intros r [<-|[]] _. reflexivity. }
  split; [exact H | now rewrite H].
Qed.

(* ===================================================================== *)
(** ** Session handlers                                                   *)
(* ===================================================================== *)

Ltac run_session :=
  cbv beta iota delta
    [Session.on_receive Session.on_disconnect Session.on_connect Session.in_world
     Session.message_attr ChatService.room_id_of ChatService.upload_message_to_room
     getitem dict_getitem];
  run_py.

Section Handlers.

Context `{store : MessageService}.

Lemma eq_str_false (v : json) (lit : string) :
  v <> JStr lit -> eq_str v lit = false.
Proof.
  destruct v; simpl; trivial. intros Hne.
  destruct (String.eqb_spec s lit) as [->|]; [contradiction | reflexivity].
Qed.

(** C8 -- Unrecognised action tag.  A received message whose action tag
    is none of CREATE, UPDATE and DELETE leaves everything as it was:
    [on_receive] returns, and the store, the log, the calls made on the
    connection registry and the session object are unchanged. *)
Theorem on_receive_unknown_action_no_effect
    (d : gmap string json) (action : json) (st : Session.State) :
  d !! "action" = Some action ->
  action <> JStr "CREATE" -> action <> JStr "UPDATE" -> action <> JStr "DELETE" ->
  Session.on_receive (JDict d) st = (Ok tt, st).
Proof.
  intros Hd Hc Hu Hdel. run_session. rewrite Hd.
  rewrite (eq_str_false _ _ Hc), (eq_str_false _ _ Hu), (eq_str_false _ _ Hdel).
  reflexivity.
Qed.

(** A CREATE whose message the store refuses: [upload_message_to_room]
    yields [False], and [on_receive] then reads [.id] of that boolean. *)
Lemma on_receive_create_store_failure
    (d : gmap string json) (content : json) (st : Session.State)
    (room_db : ChatRoom.t) (e : exn) (d' : DB) :
  d !! "action" = Some (JStr "CREATE") ->
  d !! "content" = Some content ->
  Session.room (Session.self st) = Some room_db ->
  create_message
    {| mc_context := content; mc_room_id := ChatRoom.id room_db;
       mc_author_id := User.id (Session.current_user (Session.self st)) |}
    (db (Session.world st)) = (Raise e, d') ->
  ChatService.upload_message_to_room
    (Session.current_user (Session.self st)) (Some room_db) (JDict d)
    (Session.world st)
  = (Ok (ChatService.IsBool false),
     add_log (ErrorAddingMessage e) (set_db d' (Session.world st)))
  /\ Session.on_receive (JDict d) st
     = (Raise (AttributeError "bool" "id"),
        Session.set_world
          (add_log (ErrorAddingMessage e) (set_db d' (Session.world st))) st).
Proof.
  intros Ha Hcontent Hroom Hfail. split.
  - run_session. rewrite Hcontent, Hfail. reflexivity.
  - run_session. rewrite Ha. simpl. rewrite Hroom, Hcontent, Hfail. reflexivity.
Qed.

(** C9 -- Disconnecting a session that holds no room.  While the session's
    room is still [None] -- as on a new session object, and as a rejected
    [on_connect] leaves it -- [on_disconnect] fails with an attribute
    error and hands nothing to the connection registry; with a room cached
    it emits the USER_LEAVE event for that room. *)
Theorem on_disconnect_requires_room (st : Session.State) :
  (Session.room (Session.self st) = None ->
     Session.on_disconnect st = (Raise (AttributeError "NoneType" "id"), st))
  /\ (String.eqb (User.nickname (Session.current_user (Session.self st)))
                 (Session.other_user_nickname (Session.self st)) = true ->
      Session.on_connect st
      = (Raise (RuntimeError "The user can't connect to the room"), st))
  /\ (forall u nickname, Session.room (Session.__init__ u nickname) = None)
  /\ (forall room_db, Session.room (Session.self st) = Some room_db ->
      Session.on_disconnect st
      = (Ok tt,
         Session.set_world
           (add_ws_call
              (ConnectionState (ChatRoom.id room_db)
                 (dict [("type", JStr "USER_LEAVE");
                        ("room_id", JInt (ChatRoom.id room_db));
                        ("user_id",
                         JInt (User.id (Session.current_user (Session.self st))));
                        ("user_nickname",
                         JStr (User.nickname
                                 (Session.current_user (Session.self st))))]))
              (Session.world st)) st)).
Proof.
  repeat split.
  - intros Hroom. run_session. now rewrite Hroom.
  - intros Hsame. run_session. now rewrite Hsame.
  - intros room_db Hroom. run_session. now rewrite Hroom.
Qed.

End Handlers.

Lemma on_receive_unknown_action_no_effect_witness :
  @Session.on_receive Fixtures.list_store Fixtures.msg_ping (Fixtures.session_ab [])
  = (Ok tt, Fixtures.session_ab []).
Proof.
  apply (@on_receive_unknown_action_no_effect Fixtures.list_store
           (list_to_map [("action", JStr "PING"); ("content", JStr "hi")])
           (JStr "PING") (Fixtures.session_ab []));
    [reflexivity | discriminate | discriminate | discriminate].
Defined.

Lemma on_disconnect_requires_room_witness :
  Session.on_disconnect Fixtures.session_fresh
    = (Raise (AttributeError "NoneType" "id"), Fixtures.session_fresh)
  /\ @Session.on_connect Fixtures.list_store Fixtures.session_self_chat
    = (Raise (RuntimeError "The user can't connect to the room"),
       Fixtures.session_self_chat)
  /\ Session.on_disconnect Fixtures.session_self_chat
    = (Raise (AttributeError "NoneType" "id"), Fixtures.session_self_chat).
Proof.
  destruct (@on_disconnect_requires_room Fixtures.list_store Fixtures.session_fresh)
    as (Hnone & _).
  destruct (@on_disconnect_requires_room Fixtures.list_store Fixtures.session_self_chat)
    as (Hnone' & Hreject & _).
  split; [exact (Hnone eq_refl)|].
  split; [exact (Hreject eq_refl) | exact (Hnone' eq_refl)].
Defined.

(** With a room cached, the same handler emits USER_LEAVE. *)
Example on_disconnect_after_connect :
  exists st', Session.on_disconnect (Fixtures.session_ab []) = (Ok tt, st')
    /\ ws_calls (Session.world st')
       = [ConnectionState 7
            (dict [("type", JStr "USER_LEAVE"); ("room_id", JInt 7);
                   ("user_id", JInt 1); ("user_nickname", JStr "alice")])].
Proof. eexists. split; vm_compute; reflexivity. Qed.

(** A CREATE that the store accepts is persisted and announced. *)
Example on_receive_create_healthy :
  exists st',
    @Session.on_receive Fixtures.list_store Fixtures.msg_create (Fixtures.session_ab [])
      = (Ok tt, st')
    /\ message_table (db (Session.world st')) = [ChatMessage.mk 1 "hi" 7 1]
    /\ ws_calls (Session.world st') = [ConnectionState 7 Fixtures.event_create].
Proof. eexists. repeat split; vm_compute; reflexivity. Qed.

(** C1 -- A CREATE whose persistence fails.  alice's active session
    receives a CREATE while the Message Store refuses every write:
    [upload_message_to_room] returns [False] and logs the error, and no
    call reaches the connection registry; but [on_receive] then reads the
    [id] of that [False] and raises [AttributeError], where it is described
    as completing with a failure result and the session carrying on. *)
Theorem on_receive_create_store_failure_raises :
  @ChatService.upload_message_to_room Fixtures.failing_store Fixtures.alice
     (Some Fixtures.room_ab) Fixtures.msg_create (Fixtures.world_of Fixtures.db_ab [])
   = (Ok (ChatService.IsBool false),
      add_log (ErrorAddingMessage StoreError) (Fixtures.world_of Fixtures.db_ab []))
  /\ @Session.on_receive Fixtures.failing_store Fixtures.msg_create
       (Fixtures.session_ab [])
     = (Raise (AttributeError "bool" "id"),
        Session.set_world
          (add_log (ErrorAddingMessage StoreError) (Fixtures.world_of Fixtures.db_ab []))
          (Fixtures.session_ab []))
  /\ ws_calls (Session.world
                 (snd (@Session.on_receive Fixtures.failing_store Fixtures.msg_create
                         (Fixtures.session_ab [])))) = [].
Proof.
  destruct (@on_receive_create_store_failure Fixtures.failing_store
              (list_to_map [("action", JStr "CREATE"); ("content", JStr "hi")])
              (JStr "hi") (Fixtures.session_ab []) Fixtures.room_ab StoreError
              Fixtures.db_ab) as [Hup Hrecv]; try reflexivity.
  split; [exact Hup|]. split; [exact Hrecv|].
  unfold Fixtures.msg_create, dict. rewrite Hrecv. reflexivity.
Qed.

(* ===================================================================== *)
(** ** Relay                                                              *)
(* ===================================================================== *)

Section Relay.

Import KafkaService.

Variables (inject : Provide) (message : json) (st : State).

(** What the chat producer publishes is filed under the chat-rooms topic;
    the chat consumer reads the confirmation topic.  When the two topics
    are distinct and the confirmation topic is empty, the consumer
    receives nothing and hands nothing to the connection registry. *)
Lemma chat_consumer_misses_chat_rooms_topic :
  confirmation_topic inject <> chat_rooms_topic inject ->
  topic_log (broker st) (confirmation_topic inject) = [] ->
  exists st',
    (chat_producer inject message ;;; chat_consumer inject) st = (Ok tt, st')
    /\ subscription st' = [confirmation_topic inject]
    /\ topic_log (broker st') (chat_rooms_topic inject)
       = topic_log (broker st) (chat_rooms_topic inject) ++ [json_dumps_encode message]
    /\ ws_calls (world st') = ws_calls (world st).
Proof.
  intros Hne Hempty.
  unfold chat_producer, chat_consumer, send_chat_message_producer,
    send_chat_message_consumer, send_and_wait, subscribe, records, in_world.
  run_py. simpl.
  assert (Hlog : topic_log
                   (<[chat_rooms_topic inject :=
                        topic_log (broker st) (chat_rooms_topic inject)
                        ++ [json_dumps_encode message]]> (broker st))
                   (confirmation_topic inject) = []).
  { unfold topic_log in *. rewrite lookup_insert_ne by congruence. exact Hempty. }
  rewrite Hlog. simpl. eexists. split; [reflexivity|]. simpl.
  repeat split. unfold topic_log. now rewrite lookup_insert_eq.
Qed.

End Relay.

(** C2 -- The chat consumer's topic.  With the two topics configured under
    different names, an event published by [send_chat_message_producer] is
    filed under the chat-rooms topic, while [send_chat_message_consumer]
    subscribes to the confirmation topic: it never receives the event and
    broadcasts nothing, and a verification record found there makes it
    raise.  Subscribed to the producer's topic, the same loop would
    broadcast the event to its room. *)
Theorem chat_consumer_subscribes_confirmation_topic :
  (exists st',
     (KafkaService.chat_producer Fixtures.inject Fixtures.event_create ;;;
      KafkaService.chat_consumer Fixtures.inject) Fixtures.relay_idle = (Ok tt, st')
     /\ KafkaService.subscription st' = ["confirmation"]%string
     /\ KafkaService.topic_log (KafkaService.broker st') "chat_rooms"
        = [KafkaService.json_dumps_encode Fixtures.event_create]
     /\ ws_calls (KafkaService.world st') = [])
  /\ (exists st',
        KafkaService.chat_consumer Fixtures.inject Fixtures.relay_verifying
        = (Raise (TypeError "string indices must be integers"), st')
        /\ ws_calls (KafkaService.world st') = [])
  /\ (exists st',
        (KafkaService.chat_producer Fixtures.inject Fixtures.event_create ;;;
         KafkaService.send_chat_message_consumer "chat_rooms") Fixtures.relay_idle
        = (Ok tt, st')
        /\ ws_calls (KafkaService.world st') = [Broadcast (JInt 7) Fixtures.event_create]).
Proof.
  split; [|split].
  - destruct (chat_consumer_misses_chat_rooms_topic Fixtures.inject
                Fixtures.event_create Fixtures.relay_idle) as (st' & H1 & H2 & H3 & H4);
      [discriminate | reflexivity |].
    exists st'. repeat split; assumption.
  - eexists. split; vm_compute; reflexivity.
  - eexists. split; vm_compute; reflexivity.
Qed.


(** A completed [on_connect] caches the room on the session and announces
    the join with the (here empty) backlog. *)
Example on_connect_caches_room :
  exists st',
    @Session.on_connect Fixtures.list_store Fixtures.session_fresh = (Ok tt, st')
    /\ Session.room (Session.self st') = Some Fixtures.room_ab
    /\ ws_calls (Session.world st')
       = [ConnectionState 7
            (dict [("type", JStr "USER_JOIN"); ("room_id", JInt 7);
                   ("user", Session.user_json Fixtures.alice);
                   ("chat_messages", JList [])])].
Proof. eexists. repeat split; vm_compute; reflexivity. Qed.


(* ===================================================================== *)
(** ** Further properties of the room directory                           *)
(* ===================================================================== *)

Section Fetching.

Variables (room_id : Z) (w : World).

Lemma find_None_all {A} (p : A -> bool) (l : list A) :
  find p l = None <-> (forall x, In x l -> p x = false).
Proof.
  split; [apply find_none | apply find_none_of].
Qed.

(** X1 -- [get_room_by_id] without label filtering raises
    [NotFoundError("Chat")] exactly when the table has no row of that id
    or, a viewer being given, no row of that id with the viewer among its
    members. *)
Theorem get_room_by_id_not_found_iff (viewer : option User.t) :
  ChatService.get_room_by_id room_id viewer false w
    = (Raise (NotFoundError "Chat"), w)
  <-> (forall r, In r (room_table (db w)) -> ChatRoom.id r = room_id ->
         exists u, viewer = Some u
                   /\ ChatService.any_user_id (User.id u) r = false).
Proof.
  unfold ChatService.get_room_by_id. run_py. split.
  - intros Hraise r Hr Hid. destruct viewer as [u|].
    + exists u. split; [reflexivity|].
      destruct (find _ _) eqn:Hfind; [discriminate|].
      pose proof (proj1 (find_None_all _ _) Hfind r Hr) as Hp. simpl in Hp.
      apply andb_false_iff in Hp as [Hp|Hp]; [exact Hp|].
      apply Z.eqb_neq in Hp. contradiction.
    + destruct (find _ _) eqn:Hfind; [discriminate|].
      pose proof (proj1 (find_None_all _ _) Hfind r Hr) as Hp. simpl in Hp.
      apply Z.eqb_neq in Hp. contradiction.
  - intros Hnone. destruct viewer as [u|].
    + rewrite find_none_of; [reflexivity|]. intros r Hr.
      destruct (Z.eqb_spec (ChatRoom.id r) room_id) as [Hid|_];
        [|apply andb_false_r].
      destruct (Hnone r Hr Hid) as (u' & Hu & Hmem). injection Hu as <-.
      now rewrite Hmem.
    + rewrite find_none_of; [reflexivity|]. intros r Hr.
      apply Z.eqb_neq. intros Hid.
      destruct (Hnone r Hr Hid) as (u' & Hu & _). discriminate.
Qed.

Lemma extract_nickname_relabel (r : ChatRoom.t) (u : User.t) (r' : ChatRoom.t) (w' w'' : World) :
  ChatService._extract_nickname r u w' = (Ok r', w'') ->
  r' = relabel u r /\ w'' = w'
  /\ viewer_label (ChatRoom.room_name r) (User.nickname u)
     = Some (ChatRoom.room_name r').
Proof.
  unfold ChatService._extract_nickname, relabel, viewer_label. run_py.
  destruct (list_remove _ _) as [rest|]; [|discriminate].
  intros H. injection H as <- <-. simpl. auto.
Qed.

(** X2 -- Whatever [get_room_by_id] returns is a row of the table with the
    requested id, has the viewer (when one is given) among its members, and
    differs from that row only by the viewer-facing label, applied when a
    viewer is given and label filtering is on; the fetch changes nothing. *)
Theorem get_room_by_id_returns_row
    (viewer : option User.t) (filter_result : bool) (r : ChatRoom.t) (w' : World) :
  ChatService.get_room_by_id room_id viewer filter_result w = (Ok r, w') ->
  w' = w
  /\ ChatRoom.id r = room_id
  /\ (forall u, viewer = Some u -> ChatService.any_user_id (User.id u) r = true)
  /\ exists row,
       In row (room_table (db w))
       /\ r = match viewer, filter_result with
              | Some u, true => relabel u row
              | _, _ => row
              end
       /\ (forall u, viewer = Some u -> filter_result = true ->
             viewer_label (ChatRoom.room_name row) (User.nickname u)
             = Some (ChatRoom.room_name r)).
Proof.
  unfold ChatService.get_room_by_id.
  cbv beta iota delta [bind ret raise gets].
  destruct viewer as [u|].
  - destruct (find _ _) as [row|] eqn:Hfind.
    + apply find_some in Hfind as [Hin Hp].
      apply andb_true_iff in Hp as [Hmem Hid]. apply Z.eqb_eq in Hid.
      destruct filter_result.
      * destruct (ChatService._extract_nickname row u w) as [[r'|e] w''] eqn:Hex;
          [|discriminate].
        apply extract_nickname_relabel in Hex as (-> & -> & Hlabel).
        intros H. injection H as <- <-.
        assert (Hsame : ChatRoom.id (relabel u row) = ChatRoom.id row
                        /\ ChatRoom.users (relabel u row) = ChatRoom.users row).
        { unfold relabel. destruct (viewer_label _ _); auto. }
        destruct Hsame as [Hi Hu]. repeat split.
        -- now rewrite Hi.
        -- intros u' Hu'. injection Hu' as <-.
           unfold ChatService.any_user_id in *. now rewrite Hu.
        -- exists row. repeat split; trivial.
           intros u' Hu' _. now injection Hu' as <-.
      * intros H. injection H as <- <-. repeat split; trivial.
        -- intros u' Hu'. now injection Hu' as <-.
        -- exists row. repeat split; trivial. discriminate.
    + destruct filter_result; discriminate.
  - destruct (find _ _) as [row|] eqn:Hfind.
    + apply find_some in Hfind as [Hin Hid]. apply Z.eqb_eq in Hid.
      destruct filter_result; intros H; injection H as <- <-;
        (repeat split; trivial; [discriminate|]);
        exists row; repeat split; trivial; discriminate.
    + destruct filter_result; discriminate.
Qed.

End Fetching.

Lemma get_room_by_id_returns_row_witness :
  Fixtures.world_of Fixtures.db_ab [] = Fixtures.world_of Fixtures.db_ab []
  /\ ChatRoom.id (relabel Fixtures.alice Fixtures.room_ab) = 7
  /\ (forall u, Some Fixtures.alice = Some u ->
        ChatService.any_user_id (User.id u) (relabel Fixtures.alice Fixtures.room_ab) = true)
  /\ exists row,
       In row (room_table (db (Fixtures.world_of Fixtures.db_ab [])))
       /\ relabel Fixtures.alice Fixtures.room_ab = relabel Fixtures.alice row
       /\ (forall u, Some Fixtures.alice = Some u -> true = true ->
             viewer_label (ChatRoom.room_name row) (User.nickname u)
             = Some (ChatRoom.room_name (relabel Fixtures.alice Fixtures.room_ab))).
Proof.
  apply (get_room_by_id_returns_row 7 (Fixtures.world_of Fixtures.db_ab [])
           (Some Fixtures.alice) true).
  reflexivity.
Defined.

Section Listing.

Variable (viewer : User.t).

Let tokens (r : ChatRoom.t) : list string := str_split "|" (ChatRoom.room_name r).

Lemma extract_nickname_token (r : ChatRoom.t) (w : World) :
  In (User.nickname viewer) (tokens r) ->
  ChatService._extract_nickname r viewer w = (Ok (relabel viewer r), w).
Proof.
  intros Hin. unfold ChatService._extract_nickname, relabel, viewer_label, tokens in *.
  destruct (list_remove _ _) eqn:Hrm; [reflexivity|].
  apply list_remove_None in Hrm. contradiction.
Qed.

Lemma extract_nickname_no_token (r : ChatRoom.t) (w : World) :
  ~ In (User.nickname viewer) (tokens r) ->
  ChatService._extract_nickname r viewer w
  = (Raise (ValueError "list.remove(x): x not in list"), w).
Proof.
  intros Hout. unfold ChatService._extract_nickname, tokens in *.
  apply list_remove_None in Hout. now rewrite Hout.
Qed.

Lemma extract_each_all (rooms : list ChatRoom.t) (w : World) :
  (forall r, In r rooms -> In (User.nickname viewer) (tokens r)) ->
  ChatService.extract_each viewer rooms w = (Ok (map (relabel viewer) rooms), w).
Proof.
  induction rooms as [|r rooms IH]; intros Hall; simpl; [reflexivity|].
  cbv beta iota delta [bind ret].
  rewrite extract_nickname_token by (apply Hall; now left).
  rewrite IH by (intros r' Hr'; apply Hall; now right). reflexivity.
Qed.

Lemma extract_each_some_missing (rooms : list ChatRoom.t) (w : World) :
  (exists r, In r rooms /\ ~ In (User.nickname viewer) (tokens r)) ->
  ChatService.extract_each viewer rooms w
  = (Raise (ValueError "list.remove(x): x not in list"), w).
Proof.
  induction rooms as [|r rooms IH]; intros (bad & Hin & Hbad); [destruct Hin|].
  simpl. cbv beta iota delta [bind ret].
  destruct (in_dec String.string_dec (User.nickname viewer) (tokens r)) as [Hr|Hr].
  - rewrite (extract_nickname_token _ _ Hr).
    destruct Hin as [<-|Hin]; [contradiction|].
    rewrite IH by eauto. reflexivity.
  - now rewrite (extract_nickname_no_token _ _ Hr).
Qed.

(** X3 -- [get_user_rooms] returns every room the user is a member of, in
    table order and each under its viewer-facing label, provided the user's
    nickname is a token of the name of each of these rooms; if one of them
    lacks it, the whole call raises [ValueError] and returns no room. *)
Theorem get_user_rooms_all_or_nothing (w : World) :
  let mine := List.filter (ChatService.any_user_id (User.id viewer))
                          (room_table (db w)) in
  ((forall r, In r mine -> In (User.nickname viewer) (tokens r)) ->
     ChatService.get_user_rooms viewer w = (Ok (map (relabel viewer) mine), w))
  /\ ((exists r, In r mine /\ ~ In (User.nickname viewer) (tokens r)) ->
     ChatService.get_user_rooms viewer w
     = (Raise (ValueError "list.remove(x): x not in list"), w)).
Proof.
  cbv zeta. unfold ChatService.get_user_rooms. cbv beta iota delta [bind gets].
  split; intros H.
  - now rewrite extract_each_all.
  - now rewrite extract_each_some_missing.
Qed.

End Listing.

Lemma get_user_rooms_all_or_nothing_witness :
  ChatService.get_user_rooms Fixtures.bob (Fixtures.world_of Fixtures.db_ab [])
    = (Ok [ChatRoom.set_room_name "alice" Fixtures.room_ab],
       Fixtures.world_of Fixtures.db_ab [])
  /\ ChatService.get_user_rooms Fixtures.alice (Fixtures.world_of Fixtures.db_stale [])
    = (Raise (ValueError "list.remove(x): x not in list"),
       Fixtures.world_of Fixtures.db_stale []).
Proof.
  split.
  - apply (proj1 (get_user_rooms_all_or_nothing Fixtures.bob
                    (Fixtures.world_of Fixtures.db_ab []))).
    simpl. intros r [<-|[]]. simpl. auto.
  - apply (proj2 (get_user_rooms_all_or_nothing Fixtures.alice
                    (Fixtures.world_of Fixtures.db_stale []))).
    exists Fixtures.room_stale. split; [simpl; auto|].
    simpl. intros [H|[]]. discriminate H.
Defined.

Section CreateThenList.

Variables (requester peer : User.t) (nickname : string) (w : World).

Hypothesis known_peer : user_named nickname (db w) = Some peer.
Hypothesis healthy : io_faults w = [].
Hypothesis plain_requester : contains_char "|" (User.nickname requester) = false.
Hypothesis plain_peer : contains_char "|" nickname = false.
Hypothesis no_room_yet :
  ChatService.get_room_by_nickname requester nickname w = (Ok None, w).

Let room := created_room requester nickname peer (db w).

Lemma viewer_label_canonical (a b : string) :
  contains_char "|" a = false -> contains_char "|" b = false ->
  viewer_label (ChatService.canonical_label a b) a = Some b
  /\ viewer_label (ChatService.canonical_label a b) b = Some a.
Proof.
  intros Ha Hb. unfold viewer_label.
  rewrite (str_split_canonical _ _ Ha Hb). cbn [list_remove].
  rewrite !String.eqb_refl. split.
  - cbn [option_map]. now rewrite str_join_single.
  - destruct (String.eqb_spec a b) as [->|_]; cbn [option_map];
      now rewrite str_join_single.
Qed.

Lemma created_room_labels :
  relabel requester room = ChatRoom.set_room_name nickname room
  /\ relabel peer room = ChatRoom.set_room_name (User.nickname requester) room.
Proof.
  pose proof (user_named_nickname _ _ _ known_peer) as Hpeer.
  destruct (viewer_label_canonical _ _ plain_requester plain_peer) as [Ha Hb].
  unfold relabel, room, created_room, new_room. simpl.
  now rewrite Hpeer, Ha, Hb.
Qed.

Lemma filter_none_of {A} (p : A -> bool) (l : list A) :
  (forall x, In x l -> p x = false) -> List.filter p l = [].
Proof.
  induction l as [|x l IH]; simpl; intros H; [reflexivity|].
  rewrite (H x (or_introl eq_refl)). apply IH. intros y Hy. apply H. now right.
Qed.

Lemma created_room_tokens :
  str_split "|" (ChatRoom.room_name room) = [User.nickname requester; nickname].
Proof. exact (str_split_canonical _ _ plain_requester plain_peer). Qed.

(** X4 -- Creating a room and then listing rooms.  When [get_or_create_room]
    has to create the room (healthy store, peer known, nicknames without the
    separator), the requester, if in no room before, afterwards lists exactly
    that room under the peer's nickname, and the peer, if in no room before,
    lists exactly that room under the requester's nickname. *)
Theorem get_or_create_room_then_get_user_rooms :
  exists r1 w',
    ChatService.get_or_create_room requester nickname w = (Ok r1, w')
    /\ ((forall r, In r (room_table (db w)) ->
           ChatService.any_user_id (User.id requester) r = false) ->
        ChatService.get_user_rooms requester w'
        = (Ok [ChatRoom.set_room_name nickname room], w'))
    /\ ((forall r, In r (room_table (db w)) ->
           ChatService.any_user_id (User.id peer) r = false) ->
        ChatService.get_user_rooms peer w'
        = (Ok [ChatRoom.set_room_name (User.nickname requester) room], w')).
Proof.
  pose proof (user_named_nickname _ _ _ known_peer) as Hpeer.
  assert (Hknown : user_named (User.nickname peer) (db w) = Some peer)
    by now rewrite Hpeer.
  assert (Hnone : ChatService.get_room_by_nickname requester (User.nickname peer) w
                  = (Ok None, w)) by now rewrite Hpeer.
  destruct (get_or_create_room_created_id requester peer peer w Hknown healthy Hnone)
    as (r1 & Hcreate & _).
  rewrite Hpeer in Hcreate. fold room in Hcreate.
  destruct created_room_labels as [Hreq Hpe].
  exists r1, (set_db (db_add_room room (db w)) w). split; [exact Hcreate|].
  assert (Hmine : forall u,
            ChatService.any_user_id (User.id u) room = true ->
            (forall r, In r (room_table (db w)) ->
               ChatService.any_user_id (User.id u) r = false) ->
            List.filter (ChatService.any_user_id (User.id u))
              (room_table (db (set_db (db_add_room room (db w)) w))) = [room]).
  { intros u Hin Hfree. simpl.
    rewrite List.filter_app, (filter_none_of _ _ Hfree). simpl. now rewrite Hin. }
  split; intros Hfree;
    unfold ChatService.get_user_rooms; cbv beta iota delta [bind gets].
  - rewrite (Hmine requester); [|
      unfold ChatService.any_user_id; simpl; now rewrite !Z.eqb_refl, orb_true_r
      | exact Hfree].
    rewrite extract_each_all; [simpl; now rewrite Hreq|].
    intros r [<-|[]]. rewrite created_room_tokens. now left.
  - rewrite (Hmine peer); [|
      unfold ChatService.any_user_id; simpl; now rewrite !Z.eqb_refl
      | exact Hfree].
    rewrite extract_each_all; [simpl; now rewrite Hpe|].
    intros r [<-|[]]. rewrite created_room_tokens, Hpeer. right. now left.
Qed.

End CreateThenList.

Lemma get_or_create_room_then_get_user_rooms_witness :
  exists r1 w',
    ChatService.get_or_create_room Fixtures.alice "bob"
      (Fixtures.world_of Fixtures.db_empty []) = (Ok r1, w')
    /\ ChatService.get_user_rooms Fixtures.alice w'
       = (Ok [ChatRoom.mk 1 "bob" [Fixtures.bob; Fixtures.alice] true], w')
    /\ ChatService.get_user_rooms Fixtures.bob w'
       = (Ok [ChatRoom.mk 1 "alice" [Fixtures.bob; Fixtures.alice] true], w').
Proof.
  destruct (get_or_create_room_then_get_user_rooms Fixtures.alice Fixtures.bob "bob"
              (Fixtures.world_of Fixtures.db_empty [])
              eq_refl eq_refl eq_refl eq_refl eq_refl) as (r1 & w' & H1 & H2 & H3).
  exists r1, w'. split; [exact H1|]. split.
  - apply H2. intros r [].
  - apply H3. intros r [].
Defined.

Section ActivityFlag.

Variables (room_id : Z) (activity_bool : bool) (w : World).

Lemma find_update_active (rows : list ChatRoom.t) (row : ChatRoom.t) :
  find (fun r => ChatRoom.id r =? room_id) rows = Some row ->
  find (fun r => ChatRoom.id r =? room_id)
       (map (fun r => if ChatRoom.id r =? room_id
                      then ChatRoom.set_active activity_bool r else r) rows)
  = Some (ChatRoom.set_active activity_bool row).
Proof.
  induction rows as [|r rows IH]; simpl; [discriminate|].
  destruct (ChatRoom.id r =? room_id) eqn:Hid; simpl; rewrite Hid.
  - intros H. now injection H as <-.
  - exact IH.
Qed.

(** X5 -- On a healthy store [set_room_activity] on an existing room
    returns that room with the flag set as asked and logs the update;
    afterwards every row of that id carries the flag, and the rows of all
    other ids are the same as before. *)
Theorem set_room_activity_sets_flag (row : ChatRoom.t) :
  ChatService.get_room_by_id room_id None true w = (Ok row, w) ->
  io_faults w = [] ->
  exists w',
    ChatService.set_room_activity room_id activity_bool w
      = (Ok (Some (ChatRoom.set_active activity_bool row)), w')
    /\ log w' = log w ++ [UpdatedRoomActivity]
    /\ (forall r, In r (room_table (db w')) -> ChatRoom.id r = room_id ->
          ChatRoom.active r = activity_bool)
    /\ (forall r, ChatRoom.id r <> room_id ->
          (In r (room_table (db w)) <-> In r (room_table (db w')))).
Proof.
  intros Hexists Hio.
  exists (add_log UpdatedRoomActivity
            (set_db (db_update_active room_id activity_bool (db w)) w)).
  assert (Hfind : find (fun r => ChatRoom.id r =? room_id) (room_table (db w))
                  = Some row).
  { revert Hexists. unfold ChatService.get_room_by_id. run_py.
    destruct (find _ _); intros H; [now injection H as -> | discriminate]. }
  split; [|split; [reflexivity|split]].
  - unfold ChatService.set_room_activity, ChatService.get_room_by_id. run_py.
    rewrite Hfind. repeat (rewrite Hio; simpl). rewrite (find_update_active _ _ Hfind). reflexivity.
  - simpl. intros r Hin Hid. apply in_map_iff in Hin as (r0 & <- & _).
    destruct (ChatRoom.id r0 =? room_id) eqn:H0; [reflexivity|].
    apply Z.eqb_neq in H0. contradiction.
  - simpl. intros r Hne. rewrite in_map_iff. split.
    + intros Hin. exists r. split; [|exact Hin].
      apply Z.eqb_neq in Hne. now rewrite Hne.
    + intros (r0 & Hr0 & Hin). destruct (ChatRoom.id r0 =? room_id) eqn:H0.
      * subst r. simpl in Hne. apply Z.eqb_eq in H0. contradiction.
      * now subst r0.
Qed.

(** X6 -- [set_room_activity] on an id no row carries raises
    [NotFoundError("Chat")] from its first fetch: no update is attempted
    (the pending fault schedule is untouched), nothing is logged and the
    store is as before. *)
Theorem set_room_activity_missing_room :
  (forall r, In r (room_table (db w)) -> ChatRoom.id r <> room_id) ->
  ChatService.set_room_activity room_id activity_bool w
  = (Raise (NotFoundError "Chat"), w).
Proof.
  intros Hnone.
  unfold ChatService.set_room_activity, ChatService.get_room_by_id. run_py.
  rewrite find_none_of; [reflexivity|].
  intros r Hr. apply Z.eqb_neq. now apply Hnone.
Qed.

End ActivityFlag.

Lemma set_room_activity_sets_flag_witness :
  exists w',
    ChatService.set_room_activity 7 false (Fixtures.world_of Fixtures.db_ab [])
      = (Ok (Some (ChatRoom.set_active false Fixtures.room_ab)), w')
    /\ log w' = log (Fixtures.world_of Fixtures.db_ab []) ++ [UpdatedRoomActivity]
    /\ (forall r, In r (room_table (db w')) -> ChatRoom.id r = 7 ->
          ChatRoom.active r = false)
    /\ (forall r, ChatRoom.id r <> 7 ->
          (In r (room_table (db (Fixtures.world_of Fixtures.db_ab [])))
           <-> In r (room_table (db w')))).
Proof.
  apply (set_room_activity_sets_flag 7 false (Fixtures.world_of Fixtures.db_ab [])
           Fixtures.room_ab); reflexivity.
Defined.

Lemma set_room_activity_missing_room_witness :
  ChatService.set_room_activity 9 true (Fixtures.world_of Fixtures.db_ab [true])
  = (Raise (NotFoundError "Chat"), Fixtures.world_of Fixtures.db_ab [true]).
Proof.
  apply (set_room_activity_missing_room 9 true (Fixtures.world_of Fixtures.db_ab [true])).
  intros r [<-|[]]. discriminate.
Defined.

Section Leaving.

Variables (current_user : User.t) (room_id : Z) (w : World) (room_db : ChatRoom.t).

(** The user is a member of the room: the fetch that opens
    [remove_user_from_chat] finds it. *)
Hypothesis member :
  ChatService.get_room_by_id room_id (Some current_user) false w = (Ok room_db, w).

Lemma member_row :
  In room_db (room_table (db w)) /\ ChatRoom.id room_db = room_id
  /\ ChatService.any_user_id (User.id current_user) room_db = true.
Proof.
  revert member. unfold ChatService.get_room_by_id. run_py.
  destruct (find _ _) as [r|] eqn:Hfind; intros H; [|discriminate].
  injection H as ->. apply find_some in Hfind as [Hin Hp].
  apply andb_true_iff in Hp as [Hmem Hid]. apply Z.eqb_eq in Hid. auto.
Qed.

Lemma member_find :
  find (fun r => ChatService.any_user_id (User.id current_user) r
                 && (ChatRoom.id r =? room_id)) (room_table (db w))
  = Some room_db.
Proof.
  revert member. unfold ChatService.get_room_by_id. run_py.
  destruct (find _ _) as [r|]; intros H; [now injection H as -> | discriminate].
Qed.

Lemma users_remove_member (us : list User.t) :
  existsb (fun v => User.id v =? User.id current_user) us = true ->
  exists rest, ChatService.users_remove current_user us = Some rest
               /\ occurrences current_user us = S (occurrences current_user rest)
               /\ (forall v, In v us -> User.same v current_user = false -> In v rest).
Proof.
  unfold occurrences, User.same.
  induction us as [|v us IH]; simpl; [discriminate|].
  destruct (User.id v =? User.id current_user) eqn:Hv; simpl.
  - intros _. exists us. unfold User.same. rewrite Hv.
    split; [reflexivity|]. split; [reflexivity|].
    intros v' [<-|Hin] Hne; [congruence | exact Hin].
  - intros Hex. destruct (IH Hex) as (rest & -> & Hocc & Hkeep).
    exists (v :: rest). simpl. unfold User.same. rewrite Hv. split; [reflexivity|].
    split; [exact Hocc|].
    intros v' [<-|Hin] Hne; [now left | right; now apply Hkeep].
Qed.

Lemma fetch_for_non_member (u : User.t) (w' : World) :
  (forall row, In row (room_table (db w')) -> ChatRoom.id row = room_id ->
     ChatService.any_user_id (User.id u) row = false) ->
  ChatService.get_room_by_id room_id (Some u) false w'
  = (Raise (NotFoundError "Chat"), w').
Proof.
  intros Hout. unfold ChatService.get_room_by_id. run_py.
  rewrite find_none_of; [reflexivity|].
  intros r Hr. destruct (Z.eqb_spec (ChatRoom.id r) room_id) as [Hid|_].
  - now rewrite (Hout r Hr Hid).
  - apply andb_false_r.
Qed.

Lemma occurrences_zero (us : list User.t) :
  occurrences current_user us = 0%nat ->
  existsb (fun v => User.id v =? User.id current_user) us = false.
Proof.
  unfold occurrences, User.same. induction us as [|v us IH]; simpl; [reflexivity|].
  destruct (User.id v =? User.id current_user); simpl; [discriminate | exact IH].
Qed.

(** What the store holds after the user has left: the membership [rest]
    written to the rows of that id, and those rows deleted when nobody is
    left. *)
Lemma rows_after_leaving (rest : list User.t) (d : DB) (row : ChatRoom.t) :
  let left := ChatRoom.set_users rest room_db in
  In row (room_table (match rest with
                      | [] => db_delete_room left (db_save_users left d)
                      | _ :: _ => db_save_users left d
                      end)) ->
  ChatRoom.id row = room_id -> ChatRoom.users row = rest.
Proof.
  cbv zeta. destruct member_row as (_ & Hid & _).
  assert (Hsaved : forall row', In row' (room_table
                     (db_save_users (ChatRoom.set_users rest room_db) d)) ->
                   ChatRoom.id row' = room_id -> ChatRoom.users row' = rest).
  { simpl. intros row' Hin Hrow. apply in_map_iff in Hin as (r0 & Hr0 & _).
    rewrite Hid in Hr0. destruct (ChatRoom.id r0 =? room_id) eqn:H0; subst row'.
    - reflexivity.
    - apply Z.eqb_neq in H0. contradiction. }
  destruct rest as [|v rest]; [|exact (Hsaved row)].
  simpl. intros Hin Hrow. apply filter_In in Hin as [_ Hne].
  rewrite Hid, Hrow, Z.eqb_refl in Hne. discriminate.
Qed.

Lemma remove_user_from_chat_healthy (rest : list User.t) :
  io_faults w = [] ->
  ChatService.users_remove current_user (ChatRoom.users room_db) = Some rest ->
  let left := ChatRoom.set_users rest room_db in
  ChatService.remove_user_from_chat current_user room_id w
  = (Ok tt,
     add_log (RemovingChat room_id)
       (set_db (match rest with
                | [] => db_delete_room left (db_save_users left (db w))
                | _ :: _ => db_save_users left (db w)
                end) w)).
Proof.
  intros Hio Hrm. cbv zeta. destruct member_row as (_ & _ & Hmem).
  unfold ChatService.remove_user_from_chat, ChatService.get_room_by_id. run_py.
  rewrite member_find. unfold ChatService.any_user_id in Hmem.
  rewrite member_ids, Hmem, Hrm. simpl. rewrite Hio.
  destruct rest; simpl; [rewrite Hio|]; reflexivity.
Qed.

(** X7 -- Leaving is final for the one who leaves.  A member who occurs
    once in the membership and leaves on a healthy store gets [Ok]; from
    then on the room is not found for that user, and a second
    [remove_user_from_chat] raises [NotFoundError("Chat")]. *)
Theorem remove_user_from_chat_then_not_found :
  io_faults w = [] ->
  occurrences current_user (ChatRoom.users room_db) = 1%nat ->
  exists w',
    ChatService.remove_user_from_chat current_user room_id w = (Ok tt, w')
    /\ log w' = log w ++ [RemovingChat room_id]
    /\ ChatService.get_room_by_id room_id (Some current_user) false w'
       = (Raise (NotFoundError "Chat"), w')
    /\ ChatService.remove_user_from_chat current_user room_id w'
       = (Raise (NotFoundError "Chat"), w').
Proof.
  intros Hio Honce. destruct member_row as (_ & _ & Hmem).
  destruct (users_remove_member _ Hmem) as (rest & Hrm & Hocc & _).
  rewrite Honce in Hocc. injection Hocc as Hocc. symmetry in Hocc.
  apply occurrences_zero in Hocc.
  eexists. split; [exact (remove_user_from_chat_healthy rest Hio Hrm)|].
  split; [reflexivity|].
  assert (Hgone : forall row,
            In row (room_table (db (add_log (RemovingChat room_id)
              (set_db (match rest with
                       | [] => db_delete_room (ChatRoom.set_users rest room_db)
                                 (db_save_users (ChatRoom.set_users rest room_db) (db w))
                       | _ :: _ => db_save_users (ChatRoom.set_users rest room_db) (db w)
                       end) w)))) ->
            ChatRoom.id row = room_id ->
            ChatService.any_user_id (User.id current_user) row = false).
  { intros row Hin Hrow. unfold ChatService.any_user_id.
    now rewrite (rows_after_leaving rest (db w) row Hin Hrow). }
  split.
  - apply fetch_for_non_member. exact Hgone.
  - apply remove_user_from_chat_non_member. exact Hgone.
Qed.

End Leaving.

Section LeavingEdges.

Variables (current_user : User.t) (room_id : Z) (w : World) (room_db : ChatRoom.t).

Hypothesis member :
  ChatService.get_room_by_id room_id (Some current_user) false w = (Ok room_db, w).

Lemma saved_row_in_table (rest : list User.t) :
  In (ChatRoom.set_users rest room_db)
     (room_table (db_save_users (ChatRoom.set_users rest room_db) (db w))).
Proof.
  destruct (member_row _ _ _ _ member) as (Hin & _ & _).
  simpl. apply in_map_iff. exists room_db. now rewrite Z.eqb_refl.
Qed.

(** X8 -- Leaving does not take the room from the others.  When a member
    leaves on a healthy store, any other member still fetches the room by
    its id afterwards, and finds in it the membership without the first
    occurrence of the one who left. *)
Theorem remove_user_from_chat_keeps_other_member (other : User.t) :
  io_faults w = [] ->
  User.same other current_user = false ->
  ChatService.any_user_id (User.id other) room_db = true ->
  exists w' r',
    ChatService.remove_user_from_chat current_user room_id w = (Ok tt, w')
    /\ ChatService.get_room_by_id room_id (Some other) false w' = (Ok r', w')
    /\ ChatService.users_remove current_user (ChatRoom.users room_db)
       = Some (ChatRoom.users r')
    /\ ChatService.any_user_id (User.id other) r' = true.
Proof.
  intros Hio Hother Hin.
  destruct (member_row _ _ _ _ member) as (_ & Hid & Hmem).
  destruct (users_remove_member current_user _ Hmem) as (rest & Hrm & _ & Hkeep).
  assert (Hstill : existsb (fun v => User.id v =? User.id other) rest = true).
  { unfold ChatService.any_user_id in Hin.
    apply existsb_exists in Hin as (v & Hv & Hsame). apply existsb_exists.
    exists v. split; [|exact Hsame]. apply Hkeep; [exact Hv|].
    apply Z.eqb_eq in Hsame. unfold User.same in *. now rewrite Hsame. }
  pose proof (remove_user_from_chat_healthy _ _ _ _ member rest Hio Hrm) as Hleave.
  cbv zeta in Hleave.
  pose proof (rows_after_leaving _ _ _ _ member rest (db w)) as Hrows.
  cbv zeta in Hrows.
  destruct rest as [|v rest]; [discriminate|].
  set (left := ChatRoom.set_users (v :: rest) room_db) in *.
  set (w' := add_log (RemovingChat room_id) (set_db (db_save_users left (db w)) w)) in *.
  destruct (find_is_Some
              (fun r => ChatService.any_user_id (User.id other) r
                        && (ChatRoom.id r =? room_id))
              (room_table (db w')) left) as (r' & Hfind & Hr').
  { exact (saved_row_in_table (v :: rest)). }
  { unfold ChatService.any_user_id, left. simpl ChatRoom.users. simpl ChatRoom.id.
    rewrite Hstill, Hid, Z.eqb_refl. reflexivity. }
  exists w', r'. split; [exact Hleave|].
  pose proof Hfind as Hfound. apply find_some in Hfound as [Hin' _].
  apply andb_true_iff in Hr' as [Hmem' Hid']. apply Z.eqb_eq in Hid'.
  split; [|split; [|exact Hmem']].
  - unfold ChatService.get_room_by_id. run_py. now rewrite Hfind.
  - rewrite Hrm. f_equal. symmetry. exact (Hrows r' Hin' Hid').
Qed.

(** X9 -- Leaving on a failing store.  If the commit of the membership
    change fails, [remove_user_from_chat] raises after having logged the
    removal and the store is as before.  If that commit succeeds for the
    last member and the commit of the deletion fails, the call raises and
    the room stays in the table without any member. *)
Theorem remove_user_from_chat_commit_failures (rest : list bool) :
  (io_faults w = true :: rest ->
     ChatService.remove_user_from_chat current_user room_id w
     = (Raise StoreError, add_log (RemovingChat room_id) (set_io_faults rest w)))
  /\ (io_faults w = false :: true :: rest ->
      ChatService.users_remove current_user (ChatRoom.users room_db) = Some [] ->
      exists w',
        ChatService.remove_user_from_chat current_user room_id w
          = (Raise StoreError, w')
        /\ db w' = db_save_users (ChatRoom.set_users [] room_db) (db w)
        /\ In (ChatRoom.set_users [] room_db) (room_table (db w'))).
Proof.
  destruct (member_row _ _ _ _ member) as (_ & _ & Hmem).
  destruct (users_remove_member current_user _ Hmem) as (us & Hrm & _ & _).
  unfold ChatService.any_user_id in Hmem. split.
  - intros Hio.
    unfold ChatService.remove_user_from_chat, ChatService.get_room_by_id. run_py.
    rewrite (member_find _ _ _ _ member), member_ids, Hmem, Hrm. simpl.
    rewrite Hio. reflexivity.
  - intros Hio Hlast. rewrite Hlast in Hrm. injection Hrm as <-.
    eexists. split.
    { unfold ChatService.remove_user_from_chat, ChatService.get_room_by_id. run_py.
      rewrite (member_find _ _ _ _ member), member_ids, Hmem, Hlast. simpl.
      rewrite Hio. simpl. reflexivity. }
    split; [reflexivity|]. exact (saved_row_in_table []).
Qed.

End LeavingEdges.

Lemma remove_user_from_chat_then_not_found_witness :
  exists w',
    ChatService.remove_user_from_chat Fixtures.bob 7
      (Fixtures.world_of Fixtures.db_ab []) = (Ok tt, w')
    /\ log w' = log (Fixtures.world_of Fixtures.db_ab []) ++ [RemovingChat 7]
    /\ ChatService.get_room_by_id 7 (Some Fixtures.bob) false w'
       = (Raise (NotFoundError "Chat"), w')
    /\ ChatService.remove_user_from_chat Fixtures.bob 7 w'
       = (Raise (NotFoundError "Chat"), w').
Proof.
  apply (remove_user_from_chat_then_not_found Fixtures.bob 7
           (Fixtures.world_of Fixtures.db_ab []) Fixtures.room_ab);
    reflexivity.
Defined.

Lemma remove_user_from_chat_keeps_other_member_witness :
  exists w' r',
    ChatService.remove_user_from_chat Fixtures.bob 7
      (Fixtures.world_of Fixtures.db_ab []) = (Ok tt, w')
    /\ ChatService.get_room_by_id 7 (Some Fixtures.alice) false w' = (Ok r', w')
    /\ ChatService.users_remove Fixtures.bob (ChatRoom.users Fixtures.room_ab)
       = Some (ChatRoom.users r')
    /\ ChatService.any_user_id (User.id Fixtures.alice) r' = true.
Proof.
  apply (remove_user_from_chat_keeps_other_member Fixtures.bob 7
           (Fixtures.world_of Fixtures.db_ab []) Fixtures.room_ab eq_refl Fixtures.alice);
    reflexivity.
Defined.

Lemma remove_user_from_chat_commit_failures_witness :
  ChatService.remove_user_from_chat Fixtures.bob 7 (Fixtures.world_of Fixtures.db_ab [true])
    = (Raise StoreError,
       add_log (RemovingChat 7)
         (set_io_faults [] (Fixtures.world_of Fixtures.db_ab [true])))
  /\ exists w',
       ChatService.remove_user_from_chat Fixtures.alice 7
         (Fixtures.world_of Fixtures.db_a [false; true]) = (Raise StoreError, w')
       /\ db w' = db_save_users (ChatRoom.set_users [] Fixtures.room_a)
                    (db (Fixtures.world_of Fixtures.db_a [false; true]))
       /\ In (ChatRoom.set_users [] Fixtures.room_a) (room_table (db w')).
Proof.
  split.
  - apply (proj1 (remove_user_from_chat_commit_failures Fixtures.bob 7
                    (Fixtures.world_of Fixtures.db_ab [true]) Fixtures.room_ab
                    eq_refl [])).
    reflexivity.
  - apply (proj2 (remove_user_from_chat_commit_failures Fixtures.alice 7
                    (Fixtures.world_of Fixtures.db_a [false; true]) Fixtures.room_a
                    eq_refl [])); reflexivity.
Defined.

Section Uploading.

Context `{store : MessageService}.

(** X10 -- [upload_message_to_room] never raises.  Whatever the message,
    the room reference and the store do, it returns either the message the
    store created, with nothing logged, or [False] after logging exactly
    one error; it makes no call on the connection registry. *)
Theorem upload_message_to_room_never_raises
    (current_user : User.t) (room_db : option ChatRoom.t) (message : json) (w : World) :
  exists w',
    ws_calls w' = ws_calls w
    /\ ((exists m, ChatService.upload_message_to_room current_user room_db message w
                   = (Ok (ChatService.IsMessage m), w')
                   /\ log w' = log w)
        \/ (exists e, ChatService.upload_message_to_room current_user room_db message w
                      = (Ok (ChatService.IsBool false), w')
                      /\ log w' = log w ++ [ErrorAddingMessage e])).
Proof.
  unfold ChatService.upload_message_to_room, ChatService.room_id_of,
    getitem, dict_getitem. run_py.
  assert (Hfail : forall e,
            exists w', ws_calls w' = ws_calls w
              /\ ((exists m, (Ok (ChatService.IsBool false),
                              add_log (ErrorAddingMessage e) w)
                             = (Ok (ChatService.IsMessage m), w')
                             /\ log w' = log w)
                  \/ (exists e', (Ok (ChatService.IsBool false),
                                  add_log (ErrorAddingMessage e) w)
                                 = (Ok (ChatService.IsBool false), w')
                                 /\ log w' = log w ++ [ErrorAddingMessage e']))).
  { intros e. eexists. split; [|right; exists e; split; reflexivity]. reflexivity. }
  destruct message as [| | | |l|d]; try apply Hfail.
  destruct (d !! "content") as [content|]; [|apply Hfail].
  destruct room_db as [r|]; [|apply Hfail].
  destruct (create_message _ _) as [[m|e] d'].
  - eexists. split; [|left; exists m; split; reflexivity]. reflexivity.
  - eexists. split; [|right; exists e; split; reflexivity]. reflexivity.
Qed.

(** X11 -- A message without ["content"], or a session without a room,
    never reaches the store: [upload_message_to_room] returns [False] with
    the [KeyError] or [AttributeError] logged, and the database is as
    before. *)
Theorem upload_message_to_room_skips_store
    (current_user : User.t) (room_db : option ChatRoom.t)
    (d : gmap string json) (w : World) :
  (d !! "content" = None ->
     ChatService.upload_message_to_room current_user room_db (JDict d) w
     = (Ok (ChatService.IsBool false),
        add_log (ErrorAddingMessage (KeyError "content")) w))
  /\ (forall content, d !! "content" = Some content -> room_db = None ->
     ChatService.upload_message_to_room current_user room_db (JDict d) w
     = (Ok (ChatService.IsBool false),
        add_log (ErrorAddingMessage (AttributeError "NoneType" "id")) w)).
Proof.
  unfold ChatService.upload_message_to_room, ChatService.room_id_of,
    getitem, dict_getitem. run_py.
  split.
  - intros ->. reflexivity.
  - intros content -> ->. reflexivity.
Qed.

End Uploading.

Lemma upload_message_to_room_skips_store_witness :
  @ChatService.upload_message_to_room Fixtures.list_store Fixtures.alice
    (Some Fixtures.room_ab) (dict [("action", JStr "CREATE")])
    (Fixtures.world_of Fixtures.db_ab [])
  = (Ok (ChatService.IsBool false),
     add_log (ErrorAddingMessage (KeyError "content"))
       (Fixtures.world_of Fixtures.db_ab [])).
Proof.
  apply (proj1 (@upload_message_to_room_skips_store Fixtures.list_store Fixtures.alice
                  (Some Fixtures.room_ab) (list_to_map [("action", JStr "CREATE")])
                  (Fixtures.world_of Fixtures.db_ab []))).
  reflexivity.
Defined.

Section CreationFailures.

Variables (requester : User.t) (nickname : string) (w : World).

(** X12 -- Room creation that cannot go through.  [insert_room] for a
    nickname no user carries raises [NotFoundError("User")] before any
    room is looked up or stored.  When no room exists for the pair and the
    commit of the new room fails, [get_or_create_room] and [insert_room]
    raise the store's error and no room is added. *)
Theorem room_creation_failures :
  (user_named nickname (db w) = None ->
     ChatService.insert_room requester nickname w = (Raise (NotFoundError "User"), w))
  /\ (forall peer rest,
        user_named nickname (db w) = Some peer ->
        ChatService.get_room_by_nickname requester nickname w = (Ok None, w) ->
        io_faults w = true :: rest ->
        ChatService.get_or_create_room requester nickname w
          = (Raise StoreError, set_io_faults rest w)
        /\ ChatService.insert_room requester nickname w
          = (Raise StoreError, set_io_faults rest w)
        /\ room_table (db (set_io_faults rest w)) = room_table (db w)).
Proof.
  split.
  - unfold ChatService.insert_room, user_named. run_py. now intros ->.
  - intros peer rest Hu Hnone Hio.
    unfold ChatService.get_or_create_room, ChatService.insert_room,
      ChatService.get_room_by_nickname, user_named in *.
    run_py. rewrite Hu. injection Hnone as ->. rewrite Hio. auto.
Qed.

End CreationFailures.

Lemma room_creation_failures_witness :
  ChatService.insert_room Fixtures.alice "dave" (Fixtures.world_of Fixtures.db_ab [])
    = (Raise (NotFoundError "User"), Fixtures.world_of Fixtures.db_ab [])
  /\ ChatService.get_or_create_room Fixtures.alice "bob"
       (Fixtures.world_of Fixtures.db_empty [true])
     = (Raise StoreError, Fixtures.world_of Fixtures.db_empty [])
  /\ ChatService.insert_room Fixtures.alice "bob"
       (Fixtures.world_of Fixtures.db_empty [true])
     = (Raise StoreError, Fixtures.world_of Fixtures.db_empty [])
  /\ room_table (db (Fixtures.world_of Fixtures.db_empty [])) = [].
Proof.
  split.
  - apply (proj1 (room_creation_failures Fixtures.alice "dave"
                    (Fixtures.world_of Fixtures.db_ab []))).
    reflexivity.
  - apply (proj2 (room_creation_failures Fixtures.alice "bob"
                    (Fixtures.world_of Fixtures.db_empty [true])) Fixtures.bob []);
      reflexivity.
Defined.

Lemma remove_user_from_chat_never_logs_no_such_chat_witness :
  ~ In (NoSuchChat 7)
      (log (snd (ChatService.remove_user_from_chat Fixtures.carol 7
                   (Fixtures.world_of Fixtures.db_ab [])))).
Proof.
  apply (remove_user_from_chat_never_logs_no_such_chat Fixtures.carol 7
           (Fixtures.world_of Fixtures.db_ab [])).
  simpl. tauto.
Defined.

(* ===================================================================== *)
(** ** Further properties of the session handlers                         *)
(* ===================================================================== *)

Section Connecting.

Context `{store : MessageService}.

Variables (st : Session.State).

Let me := Session.self st.

Hypothesis not_self :
  String.eqb (User.nickname (Session.current_user me)) (Session.other_user_nickname me)
  = false.

(** X13 -- A completed [on_connect].  When the room is resolved and the
    store returns the room's messages, [on_connect] caches the room on the
    session and makes exactly one registry call, for that room: a USER_JOIN
    event with the user's id and nickname and the messages in the order
    the store returned them.  When the store raises [NotFoundError]
    instead, the same event is sent with an empty backlog. *)
Theorem on_connect_caches_room_and_announces (r : ChatRoom.t) (w1 : World) :
  ChatService.get_or_create_room (Session.current_user me)
    (Session.other_user_nickname me) (Session.world st) = (Ok r, w1) ->
  (forall msgs d2,
     get_all_messages_in_room (ChatRoom.id r) (db w1) = (Ok msgs, d2) ->
     Session.on_connect st
     = (Ok tt,
        {| Session.self := Session.set_room (Some r) me;
           Session.world :=
             add_ws_call
               (ConnectionState (ChatRoom.id r)
                  (user_join r (Session.current_user me) msgs))
               (set_db d2 w1) |}))
  /\ (forall what d2,
        get_all_messages_in_room (ChatRoom.id r) (db w1)
          = (Raise (NotFoundError what), d2) ->
        Session.on_connect st
        = (Ok tt,
           {| Session.self := Session.set_room (Some r) me;
              Session.world :=
                add_ws_call
                  (ConnectionState (ChatRoom.id r)
                     (user_join r (Session.current_user me) []))
                  (set_db d2 w1) |})).
Proof.
  intros Hroom. unfold me in *. split.
  - intros msgs d2 Hmsgs. run_session. rewrite not_self, Hroom. simpl.
    rewrite Hmsgs. reflexivity.
  - intros what d2 Hmsgs. run_session. rewrite not_self, Hroom. simpl.
    rewrite Hmsgs. reflexivity.
Qed.

(** X14 -- An [on_connect] that fails after the room was resolved.  An
    error of the store other than [NotFoundError] while the backlog is
    loaded is not caught: [on_connect] raises it and no registry call is
    made, but the room is already cached on the session and whatever
    [get_or_create_room] stored stays stored.  An error of
    [get_or_create_room] itself is raised with the session's room still
    unset. *)
Theorem on_connect_failures :
  (forall r w1 e d2,
     ChatService.get_or_create_room (Session.current_user me)
       (Session.other_user_nickname me) (Session.world st) = (Ok r, w1) ->
     get_all_messages_in_room (ChatRoom.id r) (db w1) = (Raise e, d2) ->
     (forall what, e <> NotFoundError what) ->
     Session.on_connect st
     = (Raise e, {| Session.self := Session.set_room (Some r) me;
                    Session.world := set_db d2 w1 |}))
  /\ (forall e w1,
        ChatService.get_or_create_room (Session.current_user me)
          (Session.other_user_nickname me) (Session.world st) = (Raise e, w1) ->
        Session.on_connect st
        = (Raise e, {| Session.self := me; Session.world := w1 |})).
Proof.
  unfold me in *. split.
  - intros r w1 e d2 Hroom Hmsgs Hother. run_session.
    rewrite not_self, Hroom. simpl. rewrite Hmsgs.
    destruct e; try reflexivity. exfalso. now apply (Hother what).
  - intros e w1 Hroom. run_session. rewrite not_self, Hroom. reflexivity.
Qed.

End Connecting.

Lemma on_connect_caches_room_and_announces_witness :
  @Session.on_connect Fixtures.list_store Fixtures.session_history
  = (Ok tt,
     {| Session.self :=
          Session.set_room (Some Fixtures.room_ab) (Session.__init__ Fixtures.bob "alice");
        Session.world :=
          add_ws_call
            (ConnectionState 7 (user_join Fixtures.room_ab Fixtures.bob Fixtures.history))
            (Fixtures.world_of Fixtures.db_history []) |}).
Proof.
  apply (proj1 (@on_connect_caches_room_and_announces Fixtures.list_store
                  Fixtures.session_history eq_refl Fixtures.room_ab
                  (Fixtures.world_of Fixtures.db_history []) eq_refl)
           Fixtures.history Fixtures.db_history).
  reflexivity.
Defined.

Lemma on_connect_failures_witness :
  @Session.on_connect Fixtures.failing_store Fixtures.session_fresh
  = (Raise StoreError,
     {| Session.self :=
          Session.set_room (Some Fixtures.room_ab) (Session.__init__ Fixtures.alice "bob");
        Session.world := Fixtures.world_of Fixtures.db_ab [] |}).
Proof.
  apply (proj1 (@on_connect_failures Fixtures.failing_store Fixtures.session_fresh eq_refl)
           Fixtures.room_ab (Fixtures.world_of Fixtures.db_ab []) StoreError Fixtures.db_ab);
    [reflexivity | reflexivity | discriminate].
Defined.

Section Receiving.

Context `{store : MessageService}.

Variables (d : gmap string json) (st : Session.State).

Let me := Session.self st.
Let w := Session.world st.

(** X15 -- Errors of the store on DELETE and UPDATE are not caught.  When
    [delete_message] or [update_message] raises, [on_receive] raises the
    same exception: nothing is logged, no registry call is made, and the
    store is left as the failed operation left it. *)
Theorem on_receive_delete_update_propagate (e : exn) (d' : DB) :
  (forall content,
     d !! "action" = Some (JStr "DELETE") ->
     d !! "content" = Some content ->
     delete_message content (db w) = (Raise e, d') ->
     Session.on_receive (JDict d) st = (Raise e, Session.set_world (set_db d' w) st))
  /\ (forall message_id content,
        d !! "action" = Some (JStr "UPDATE") ->
        d !! "message_id" = Some message_id ->
        d !! "content" = Some content ->
        update_message message_id content (db w) = (Raise e, d') ->
        Session.on_receive (JDict d) st = (Raise e, Session.set_world (set_db d' w) st)).
Proof.
  unfold w. split.
  - intros content Ha Hc Hfail. run_session. rewrite Ha. simpl.
    rewrite Hc, Hfail. reflexivity.
  - intros message_id content Ha Hm Hc Hfail. run_session. rewrite Ha. simpl.
    rewrite Hm, Hc, Hfail. reflexivity.
Qed.

(** X16 -- What a successful action announces.  On a session holding room
    [r], each of CREATE, DELETE and UPDATE that the store accepts makes
    exactly one registry call, addressed to the id of [r]: CREATE_MESSAGE
    with the room id, the user and the id and text of the message the store
    created; DELETE_MESSAGE with the content the client sent; UPDATE_MESSAGE
    with the id and text of the message the store returned. *)
Theorem on_receive_announces (r : ChatRoom.t) (d' : DB) :
  Session.room me = Some r ->
  (forall content m,
     d !! "action" = Some (JStr "CREATE") ->
     d !! "content" = Some content ->
     create_message {| mc_context := content; mc_room_id := ChatRoom.id r;
                       mc_author_id := User.id (Session.current_user me) |} (db w)
       = (Ok m, d') ->
     Session.on_receive (JDict d) st
     = (Ok tt,
        Session.set_world
          (add_ws_call
             (ConnectionState (ChatRoom.id r)
                (dict [("type", JStr "CREATE_MESSAGE");
                       ("room_id", JInt (ChatRoom.id r));
                       ("user", Session.user_json (Session.current_user me));
                       ("message",
                        dict [("message_id", JInt (ChatMessage.id m));
                              ("message_context", JStr (ChatMessage.context m))])]))
             (set_db d' w)) st))
  /\ (forall content,
        d !! "action" = Some (JStr "DELETE") ->
        d !! "content" = Some content ->
        delete_message content (db w) = (Ok tt, d') ->
        Session.on_receive (JDict d) st
        = (Ok tt,
           Session.set_world
             (add_ws_call
                (ConnectionState (ChatRoom.id r)
                   (dict [("type", JStr "DELETE_MESSAGE"); ("message_id", content)]))
                (set_db d' w)) st))
  /\ (forall message_id content m,
        d !! "action" = Some (JStr "UPDATE") ->
        d !! "message_id" = Some message_id ->
        d !! "content" = Some content ->
        update_message message_id content (db w) = (Ok m, d') ->
        Session.on_receive (JDict d) st
        = (Ok tt,
           Session.set_world
             (add_ws_call
                (ConnectionState (ChatRoom.id r)
                   (dict [("type", JStr "UPDATE_MESSAGE");
                          ("message_id", JInt (ChatMessage.id m));
                          ("message_context", JStr (ChatMessage.context m))]))
                (set_db d' w)) st)).
Proof.
  unfold me, w. intros Hroom. repeat split.
  - intros content m Ha Hc Hok. run_session. rewrite Ha. simpl.
    rewrite Hroom, Hc, Hok. reflexivity.
  - intros content Ha Hc Hok. run_session. rewrite Ha. simpl.
    rewrite Hc, Hok, Hroom. reflexivity.
  - intros message_id content m Ha Hm Hc Hok. run_session. rewrite Ha. simpl.
    rewrite Hm, Hc, Hok, Hroom. reflexivity.
Qed.

(** X17 -- Actions on a session that holds no room.  CREATE does not reach
    the store: the missing room is logged as a failed upload and
    [on_receive] raises [AttributeError].  DELETE and UPDATE, however, are
    carried out by the store before the room is looked at: the message is
    deleted or changed, then [on_receive] raises [AttributeError] and
    nothing is announced. *)
Theorem on_receive_without_room (d' : DB) :
  Session.room me = None ->
  (forall content,
     d !! "action" = Some (JStr "CREATE") ->
     d !! "content" = Some content ->
     Session.on_receive (JDict d) st
     = (Raise (AttributeError "NoneType" "id"),
        Session.set_world
          (add_log (ErrorAddingMessage (AttributeError "NoneType" "id")) w) st))
  /\ (forall content,
        d !! "action" = Some (JStr "DELETE") ->
        d !! "content" = Some content ->
        delete_message content (db w) = (Ok tt, d') ->
        Session.on_receive (JDict d) st
        = (Raise (AttributeError "NoneType" "id"), Session.set_world (set_db d' w) st))
  /\ (forall message_id content m,
        d !! "action" = Some (JStr "UPDATE") ->
        d !! "message_id" = Some message_id ->
        d !! "content" = Some content ->
        update_message message_id content (db w) = (Ok m, d') ->
        Session.on_receive (JDict d) st
        = (Raise (AttributeError "NoneType" "id"), Session.set_world (set_db d' w) st)).
Proof.
  unfold me, w. intros Hroom. repeat split.
  - intros content Ha Hc. run_session. rewrite Ha. simpl.
    rewrite Hroom, Hc. reflexivity.
  - intros content Ha Hc Hok. run_session. rewrite Ha. simpl.
    rewrite Hc, Hok, Hroom. reflexivity.
  - intros message_id content m Ha Hm Hc Hok. run_session. rewrite Ha. simpl.
    rewrite Hm, Hc, Hok, Hroom. reflexivity.
Qed.

End Receiving.

Lemma on_receive_delete_update_propagate_witness :
  @Session.on_receive Fixtures.table_store Fixtures.msg_delete (Fixtures.session_ab [])
    = (Raise (NotFoundError "Message"), Fixtures.session_ab [])
  /\ @Session.on_receive Fixtures.table_store Fixtures.msg_update (Fixtures.session_ab [])
    = (Raise (NotFoundError "Message"), Fixtures.session_ab []).
Proof.
  split.
  - apply (proj1 (@on_receive_delete_update_propagate Fixtures.table_store
                    (list_to_map [("action", JStr "DELETE"); ("content", JInt 1)])
                    (Fixtures.session_ab []) (NotFoundError "Message") Fixtures.db_ab)
             (JInt 1)); reflexivity.
  - apply (proj2 (@on_receive_delete_update_propagate Fixtures.table_store
                    (list_to_map [("action", JStr "UPDATE"); ("message_id", JInt 1);
                                  ("content", JStr "hey")])
                    (Fixtures.session_ab []) (NotFoundError "Message") Fixtures.db_ab)
             (JInt 1) (JStr "hey")); reflexivity.
Defined.

Lemma on_receive_announces_witness :
  @Session.on_receive Fixtures.list_store Fixtures.msg_create (Fixtures.session_ab [])
  = (Ok tt,
     Session.set_world
       (add_ws_call (ConnectionState 7 Fixtures.event_create)
          (set_db (Fixtures.set_message_table [ChatMessage.mk 1 "hi" 7 1] Fixtures.db_ab)
             (Fixtures.world_of Fixtures.db_ab [])))
       (Fixtures.session_ab [])).
Proof.
  apply (proj1 (@on_receive_announces Fixtures.list_store
                  (list_to_map [("action", JStr "CREATE"); ("content", JStr "hi")])
                  (Fixtures.session_ab []) Fixtures.room_ab
                  (Fixtures.set_message_table [ChatMessage.mk 1 "hi" 7 1] Fixtures.db_ab)
                  eq_refl)
           (JStr "hi") (ChatMessage.mk 1 "hi" 7 1)); reflexivity.
Defined.

Lemma on_receive_without_room_witness :
  @Session.on_receive Fixtures.table_store Fixtures.msg_delete Fixtures.session_history
  = (Raise (AttributeError "NoneType" "id"),
     Session.set_world
       (set_db (Fixtures.set_message_table [ChatMessage.mk 2 "hi alice" 7 2]
                  Fixtures.db_history)
          (Fixtures.world_of Fixtures.db_history []))
       Fixtures.session_history).
Proof.
  apply (proj1 (proj2 (@on_receive_without_room Fixtures.table_store
                         (list_to_map [("action", JStr "DELETE"); ("content", JInt 1)])
                         Fixtures.session_history
                         (Fixtures.set_message_table [ChatMessage.mk 2 "hi alice" 7 2]
                            Fixtures.db_history)
                         eq_refl))
           (JInt 1)); reflexivity.
Defined.

Section Discipline.

Context `{store : MessageService}.

Ltac split_cases :=
  repeat match goal with
         | |- context [match ?x with _ => _ end] =>
             match x with
             | context [match _ with _ => _ end] => fail 1
             | _ => destruct x; simpl
             end
         end.

(** X18 -- [on_receive] and the connection registry.  Whatever is
    received and whatever the store does, [on_receive] leaves the session
    object as it was, makes no registry call when it raises, and when it
    returns has made at most one, addressed to the session's own room. *)
Theorem on_receive_registry_discipline (msg : json) (st : Session.State) :
  Session.self (snd (Session.on_receive msg st)) = Session.self st
  /\ match fst (Session.on_receive msg st) with
     | Raise _ =>
         ws_calls (Session.world (snd (Session.on_receive msg st)))
         = ws_calls (Session.world st)
     | Ok _ =>
         ws_calls (Session.world (snd (Session.on_receive msg st)))
         = ws_calls (Session.world st)
         \/ exists r response,
              Session.room (Session.self st) = Some r
              /\ ws_calls (Session.world (snd (Session.on_receive msg st)))
                 = ws_calls (Session.world st)
                   ++ [ConnectionState (ChatRoom.id r) response]
     end.
Proof.
  run_session. destruct st as [me w]. simpl.
  destruct msg as [| | | |l|d]; simpl; auto.
  destruct (d !! "action") as [action|]; simpl; auto.
  destruct (eq_str action "CREATE"); [|destruct (eq_str action "DELETE");
                                        [|destruct (eq_str action "UPDATE")]];
    simpl; auto; split_cases;
    (split; [reflexivity
            | first [reflexivity | left; reflexivity
                    | right; do 2 eexists; split; reflexivity]]).
Qed.

End Discipline.

(* ===================================================================== *)
(** ** Further properties of the relay                                    *)
(* ===================================================================== *)

Section RelayLoop.

Import KafkaService.

Lemma add_ws_calls_nil (w : World) : add_ws_calls [] w = w.
Proof. destruct w. unfold add_ws_calls. simpl. now rewrite app_nil_r. Qed.

Lemma add_ws_calls_cons (c : ws_call) (cs : list ws_call) (w : World) :
  add_ws_calls cs (add_ws_call c w) = add_ws_calls (c :: cs) w.
Proof. unfold add_ws_calls, add_ws_call. simpl. now rewrite <- app_assoc. Qed.

Lemma getitem_room_id (doc room_id : json) (w : World) :
  event_room_id doc = Some room_id -> getitem doc "room_id" w = (Ok room_id, w).
Proof.
  destruct doc; simpl; try discriminate. unfold dict_getitem. now intros ->.
Qed.

Lemma getitem_no_room_id (doc : json) (w : World) :
  event_room_id doc = None -> exists e, getitem doc "room_id" w = (Raise e, w).
Proof.
  destruct doc; simpl; intros H; try (eexists; reflexivity).
  unfold dict_getitem. rewrite H. eexists. reflexivity.
Qed.

Lemma deliveries_app (docs1 docs2 : list json) :
  deliveries (docs1 ++ docs2) = deliveries docs1 ++ deliveries docs2.
Proof. unfold deliveries. apply flat_map_app. Qed.

Lemma consume_routable (docs : list json) (w : World) :
  Forall (fun doc => event_room_id doc <> None) docs ->
  consume (map json_dumps_encode docs) w = (Ok tt, add_ws_calls (deliveries docs) w).
Proof.
  intros Hall. revert w. induction Hall as [|doc docs Hdoc _ IH]; intros w.
  - simpl. now rewrite add_ws_calls_nil.
  - destruct (event_room_id doc) as [room_id|] eqn:Hrid; [|contradiction].
    simpl. cbv beta iota delta [bind broadcast modify].
    rewrite (getitem_room_id _ _ _ Hrid). cbv beta iota.
    rewrite IH, add_ws_calls_cons.
    unfold deliveries. simpl. now rewrite Hrid.
Qed.

(** X19 -- The relay loop delivers in order.  Given records that all
    decode to a dict with a ["room_id"], the loop of
    [send_chat_message_consumer] returns after one [broadcast] per record,
    in the order of the records, each with the record's room id and the
    whole decoded document; nothing else in the world changes. *)
Theorem consume_broadcasts_every_record (docs : list json) (w : World) :
  Forall (fun doc => event_room_id doc <> None) docs ->
  consume (encode_all docs) w = (Ok tt, add_ws_calls (deliveries docs) w)
  /\ length (deliveries docs) = length docs.
Proof.
  intros Hall. split; [exact (consume_routable docs w Hall)|].
  induction Hall as [|doc docs Hdoc _ IH]; [reflexivity|].
  unfold deliveries in *. simpl.
  destruct (event_room_id doc); [|contradiction]. simpl. now rewrite IH.
Qed.

(** X20 -- The relay loop ends at the first record it cannot route.  When
    a record decodes to something that is not a dict, or to a dict without
    ["room_id"], the loop raises at that record: the records before it
    have been broadcast, and neither it nor any record after it is. *)
Theorem consume_stops_at_unroutable_record
    (before : list json) (bad : json) (after : list json) (w : World) :
  Forall (fun doc => event_room_id doc <> None) before ->
  event_room_id bad = None ->
  exists e,
    consume (encode_all (before ++ bad :: after)) w
    = (Raise e, add_ws_calls (deliveries before) w).
Proof.
  intros Hall Hbad. unfold encode_all. revert w.
  induction Hall as [|doc docs Hdoc _ IH]; intros w.
  - simpl. cbv beta iota delta [bind]. rewrite add_ws_calls_nil.
    destruct (getitem_no_room_id bad w Hbad) as (e & ->). now exists e.
  - destruct (event_room_id doc) as [room_id|] eqn:Hrid; [|contradiction].
    destruct (IH (add_ws_call (Broadcast room_id doc) w)) as (e & Hrun).
    exists e. simpl. cbv beta iota delta [bind broadcast modify].
    rewrite (getitem_room_id _ _ _ Hrid). cbv beta iota.
    rewrite Hrun, add_ws_calls_cons.
    unfold deliveries. simpl. now rewrite Hrid.
Qed.

(** X21 -- Publishing and consuming on one topic.  When the consumer is
    given the topic the producer publishes to, and that topic so far holds
    routable records only, publishing a routable event and then running the
    consumer broadcasts the earlier records and then the new event, with
    its own room id, as the last call. *)
Theorem produce_then_consume_same_topic
    (topic : string) (earlier : list json) (message room_id : json) (st : State) :
  topic_log (broker st) topic = encode_all earlier ->
  Forall (fun doc => event_room_id doc <> None) earlier ->
  event_room_id message = Some room_id ->
  exists st',
    (send_chat_message_producer message topic ;;;
     send_chat_message_consumer topic) st = (Ok tt, st')
    /\ ws_calls (world st')
       = ws_calls (world st) ++ deliveries earlier ++ [Broadcast room_id message]
    /\ topic_log (broker st') topic = encode_all (earlier ++ [message]).
Proof.
  intros Hlog Hearlier Hmsg.
  assert (Hall : Forall (fun doc => event_room_id doc <> None) (earlier ++ [message])).
  { apply Forall_app. split; [exact Hearlier|]. constructor; [|constructor].
    now rewrite Hmsg. }
  pose proof (consume_routable (earlier ++ [message]) (world st) Hall) as Hrun.
  rewrite map_app in Hrun. simpl in Hrun.
  unfold send_chat_message_producer, send_chat_message_consumer, send_and_wait,
    subscribe, records, in_world.
  run_py. simpl. unfold topic_log at 1. rewrite lookup_insert_eq. simpl.
  rewrite app_nil_r, Hlog. unfold encode_all in *. rewrite Hrun.
  eexists. split; [reflexivity|]. simpl. split.
  - rewrite deliveries_app. unfold deliveries at 2. simpl. now rewrite Hmsg.
  - unfold topic_log. rewrite lookup_insert_eq. simpl. now rewrite map_app.
Qed.

End RelayLoop.

Lemma consume_broadcasts_every_record_witness :
  KafkaService.consume (encode_all [Fixtures.event_create; Fixtures.event_leave])
    (Fixtures.world_of Fixtures.db_ab [])
  = (Ok tt,
     add_ws_calls (deliveries [Fixtures.event_create; Fixtures.event_leave])
       (Fixtures.world_of Fixtures.db_ab []))
  /\ length (deliveries [Fixtures.event_create; Fixtures.event_leave]) = 2%nat.
Proof.
  apply (consume_broadcasts_every_record
           [Fixtures.event_create; Fixtures.event_leave]
           (Fixtures.world_of Fixtures.db_ab [])).
  repeat constructor; vm_compute; discriminate.
Defined.

Lemma consume_stops_at_unroutable_record_witness :
  exists e,
    KafkaService.consume
      (encode_all ([Fixtures.event_create] ++ Fixtures.verification_record
                     :: [Fixtures.event_leave]))
      (Fixtures.world_of Fixtures.db_ab [])
    = (Raise e,
       add_ws_calls (deliveries [Fixtures.event_create])
         (Fixtures.world_of Fixtures.db_ab [])).
Proof.
  apply (consume_stops_at_unroutable_record [Fixtures.event_create]
           Fixtures.verification_record [Fixtures.event_leave]
           (Fixtures.world_of Fixtures.db_ab [])).
  - repeat constructor; vm_compute; discriminate.
  - reflexivity.
Defined.

Lemma produce_then_consume_same_topic_witness :
  exists st',
    (KafkaService.send_chat_message_producer Fixtures.event_create "chat_rooms" ;;;
     KafkaService.send_chat_message_consumer "chat_rooms") Fixtures.relay_idle
    = (Ok tt, st')
    /\ ws_calls (KafkaService.world st')
       = ws_calls (KafkaService.world Fixtures.relay_idle) ++ deliveries []
         ++ [Broadcast (JInt 7) Fixtures.event_create]
    /\ KafkaService.topic_log (KafkaService.broker st') "chat_rooms"
       = encode_all ([] ++ [Fixtures.event_create]).
Proof.
  apply (produce_then_consume_same_topic "chat_rooms" [] Fixtures.event_create
           (JInt 7) Fixtures.relay_idle).
  - reflexivity.
  - constructor.
  - reflexivity.
Defined.

(* ===================================================================== *)
(** ** Edge cases of labels and of pairing                                *)
(* ===================================================================== *)

Section LabelEdges.

Lemma str_join_cons (tok : string) (toks : list string) :
  str_join (tok :: toks) = (tok ++ str_join toks)%string.
Proof. reflexivity. Qed.

Lemma append_String (c : ascii) (s t : string) :
  (String c s ++ t)%string = String c (s ++ t).
Proof. reflexivity. Qed.

Lemma append_empty (t : string) : ("" ++ t)%string = t.
Proof. reflexivity. Qed.

Lemma join_split_no_separator (sep : ascii) (s : string) :
  contains_char sep (str_join (str_split sep s)) = false.
Proof.
  induction s as [|c s IH]; [reflexivity|].
  simpl str_split. destruct (Ascii.eqb c sep) eqn:Hc.
  - now rewrite str_join_cons, append_empty.
  - destruct (str_split sep s) as [|tok toks].
    + rewrite str_join_cons, append_String. simpl. now rewrite Hc.
    + rewrite str_join_cons, append_String. simpl. rewrite Hc.
      now rewrite str_join_cons in IH.
Qed.

(** X22 -- A peer nickname that contains the separator.  For a room named
    "<requester>|<peer>" with a requester nickname free of the separator,
    the label derived for the requester is the peer's nickname with every
    separator dropped: it is the join of the peer nickname's own tokens and
    never contains the separator. *)
Theorem extract_nickname_drops_separators
    (room_db : ChatRoom.t) (requester : User.t) (peer_nickname : string) (w : World) :
  contains_char "|" (User.nickname requester) = false ->
  ChatRoom.room_name room_db
    = ChatService.canonical_label (User.nickname requester) peer_nickname ->
  ChatService._extract_nickname room_db requester w
    = (Ok (ChatRoom.set_room_name (str_join (str_split "|" peer_nickname)) room_db), w)
  /\ contains_char "|" (str_join (str_split "|" peer_nickname)) = false.
Proof.
  intros Ha Hname. split; [|apply join_split_no_separator].
  unfold ChatService._extract_nickname, ChatService.canonical_label in *.
  rewrite Hname. change ("|" ++ peer_nickname)%string with (String "|" peer_nickname).
  rewrite (str_split_append _ _ _ Ha). cbn [list_remove].
  now rewrite String.eqb_refl.
Qed.

(** X23 -- Fetching a room whose stored name lacks the viewer's nickname.
    With a viewer given and label filtering on, [get_room_by_id] on a room
    that exists and has the viewer as a member still fails, with
    [ValueError] instead of a room, when the viewer's nickname is not a
    token of the stored name. *)
Theorem get_room_by_id_stale_name
    (room_id : Z) (viewer : User.t) (row : ChatRoom.t) (w : World) :
  ChatService.get_room_by_id room_id (Some viewer) false w = (Ok row, w) ->
  ~ In (User.nickname viewer) (str_split "|" (ChatRoom.room_name row)) ->
  ChatService.get_room_by_id room_id (Some viewer) true w
  = (Raise (ValueError "list.remove(x): x not in list"), w).
Proof.
  intros Hfetch Hout.
  pose proof (member_find _ _ _ _ Hfetch) as Hfind.
  unfold ChatService.get_room_by_id. cbv beta iota delta [bind gets ret].
  rewrite Hfind. now rewrite (extract_nickname_no_token viewer row w Hout).
Qed.

(** X24 -- Pairing a user with their own nickname.  [get_or_create_room]
    does not reject the requester's own nickname: it then returns the
    first room that has any member of that nickname, whoever else is in
    it, and creates nothing. *)
Theorem get_or_create_room_own_nickname
    (requester found : User.t) (row : ChatRoom.t) (w : World) :
  user_named (User.nickname requester) (db w) = Some found ->
  find (ChatService.any_nickname (User.nickname requester)) (room_table (db w))
    = Some row ->
  ChatService.get_or_create_room requester (User.nickname requester) w = (Ok row, w).
Proof.
  intros Hknown Hfind.
  apply (get_or_create_room_found _ _ _ found row Hknown).
  unfold ChatService.get_room_by_nickname. cbv beta iota delta [gets].
  rewrite <- Hfind. f_equal. f_equal. apply find_pointwise.
  intros r. apply andb_diag.
Qed.

End LabelEdges.

Lemma extract_nickname_drops_separators_witness :
  ChatService._extract_nickname (ChatRoom.mk 7 "alice|bo|b" [Fixtures.bob; Fixtures.alice] true)
    Fixtures.alice (Fixtures.world_of Fixtures.db_ab [])
    = (Ok (ChatRoom.set_room_name (str_join (str_split "|" "bo|b"))
             (ChatRoom.mk 7 "alice|bo|b" [Fixtures.bob; Fixtures.alice] true)),
       Fixtures.world_of Fixtures.db_ab [])
  /\ contains_char "|" (str_join (str_split "|" "bo|b")) = false.
Proof.
  apply (extract_nickname_drops_separators
           (ChatRoom.mk 7 "alice|bo|b" [Fixtures.bob; Fixtures.alice] true)
           Fixtures.alice "bo|b" (Fixtures.world_of Fixtures.db_ab []));
    reflexivity.
Defined.

Lemma get_room_by_id_stale_name_witness :
  ChatService.get_room_by_id 7 (Some Fixtures.alice) true
    (Fixtures.world_of Fixtures.db_stale [])
  = (Raise (ValueError "list.remove(x): x not in list"),
     Fixtures.world_of Fixtures.db_stale []).
Proof.
  apply (get_room_by_id_stale_name 7 Fixtures.alice Fixtures.room_stale
           (Fixtures.world_of Fixtures.db_stale [])).
  - reflexivity.
  - simpl. intros [H|[]]. discriminate H.
Defined.

Lemma get_or_create_room_own_nickname_witness :
  ChatService.get_or_create_room Fixtures.alice (User.nickname Fixtures.alice)
    (Fixtures.world_of Fixtures.db_ab [])
  = (Ok Fixtures.room_ab, Fixtures.world_of Fixtures.db_ab []).
Proof.
  apply (get_or_create_room_own_nickname Fixtures.alice Fixtures.alice Fixtures.room_ab
           (Fixtures.world_of Fixtures.db_ab [])); reflexivity.
Defined.
